(** * Blogicum: visibility and permission rules of [blog/views.py]

    A shallow embedding of the view classes of the blog application.  The
    persistent store is a record of tables (lists of rows), a queryset is a
    list of rows, a lookup such as [pub_date__lte=now] is a boolean function
    on rows, and a view that can raise [Http404] returns a value of type
    [Raises].  Views that write take the store and return the new one. *)

From Stdlib Require Import ZArith List Bool String Arith Lia.
From Stdlib Require Import Permutation Sorted.
From Stdlib Require DecimalString DecimalNat DecimalFacts Ascii.
Import ListNotations.

Set Implicit Arguments.

(** ** Data model *)

(** Modelled from the spec: [blog/models.py] is not among the sources.  The
    rows carry the attributes the spec lists for a user: a primary key and a
    unique username. *)
Module User.
Record t := mk { pk : nat; username : string }.
End User.

(** Modelled from the spec: [blog/models.py] is not among the sources.  A
    category has an id, a title, a unique slug and the [is_published] flag. *)
Module Category.
Record t := mk { pk : nat; title : string; slug : string;
                 is_published : bool }.
End Category.

(** Modelled from the spec: [blog/models.py] is not among the sources.  A post
    refers to its author by key, to its category and location by an optional
    (nullable) key, and carries the publication timestamp and its own
    [is_published] flag. *)
Module Post.
Record t := mk { pk : nat; author : nat; category : option nat;
                 location : option nat; title : string; text : string;
                 pub_date : Z; is_published : bool; created_at : Z }.
End Post.

(** Modelled from the spec: [blog/models.py] is not among the sources.  A
    comment has a required parent post, an author, a text and a creation
    timestamp; the reverse relation from a post is called [comments]. *)
Module Comment.
Record t := mk { pk : nat; post : nat; author : nat; text : string;
                 created_at : Z }.
End Comment.

(** The store: one list of rows per table, in insertion order. *)
Record DB := mkDB {
  users : list User.t;
  categories : list Category.t;
  posts : list Post.t;
  comments : list Comment.t
}.

(** [request.user]: the anonymous user or a row of the user table. *)
Inductive RequestUser :=
| AnonymousUser
| LoggedIn (u : User.t).

Definition is_authenticated (u : RequestUser) : bool :=
  match u with AnonymousUser => false | LoggedIn _ => true end.

(** [obj == request.user] for a user row [obj] with key [user_pk]: two model
    instances are equal when their primary keys are; the anonymous user
    equals no row. *)
Definition same_user (user_pk : nat) (u : RequestUser) : bool :=
  match u with
  | AnonymousUser => false
  | LoggedIn r => user_pk =? User.pk r
  end.

(** ** Exceptions *)

(** What a query that may raise returns: a value, [Http404], or the
    [MultipleObjectsReturned] error of [QuerySet.get]. *)
Inductive Raises (A : Type) :=
| Return (a : A)
| Http404
| MultipleObjectsReturned.
Arguments Http404 {A}.
Arguments MultipleObjectsReturned {A}.

Definition bind {A B} (m : Raises A) (k : A -> Raises B) : Raises B :=
  match m with
  | Return a => k a
  | Http404 => Http404
  | MultipleObjectsReturned => MultipleObjectsReturned
  end.

Notation "x <- m ;; k" := (bind m (fun x => k))
  (at level 61, m at next level, right associativity).

(** ** The ORM operations the views use *)

(** A queryset is the list of its rows.  [select_related] changes how the
    related rows are loaded, not which rows a queryset holds, and has no
    counterpart here. *)
Module ORM.

(** [filter(k1=v1, k2=v2, ...)]: every lookup of the call must hold. *)
Definition all_of {A} (lookups : list (A -> bool)) (x : A) : bool :=
  forallb (fun q => q x) lookups.

(** [get_object_or_404(queryset, **lookups)]: the single matching row;
    no row raises [Http404], several rows raise. *)
Definition get_object_or_404 {A} (qs : list A) (lookups : list (A -> bool))
  : Raises A :=
  match filter (all_of lookups) qs with
  | [] => Http404
  | [x] => Return x
  | _ :: _ :: _ => MultipleObjectsReturned
  end.

(** [Q(..) & Q(..)] and [Q(..) | Q(..)]. *)
Definition Q_and {A} (q1 q2 : A -> bool) (x : A) : bool := q1 x && q2 x.
Definition Q_or {A} (q1 q2 : A -> bool) (x : A) : bool := q1 x || q2 x.

(** Lookups on users, categories and comments. *)
Definition User_username (s : string) (u : User.t) : bool :=
  String.eqb (User.username u) s.
Definition Category_slug (s : string) (c : Category.t) : bool :=
  String.eqb (Category.slug c) s.
Definition Category_is_published (b : bool) (c : Category.t) : bool :=
  Bool.eqb (Category.is_published c) b.
Definition Comment_pk (i : nat) (c : Comment.t) : bool :=
  Comment.pk c =? i.

(** Lookups on posts. *)
Definition pk (i : nat) (p : Post.t) : bool := Post.pk p =? i.
Definition pub_date__lte (t : Z) (p : Post.t) : bool :=
  (Post.pub_date p <=? t)%Z.
Definition is_published (b : bool) (p : Post.t) : bool :=
  Bool.eqb (Post.is_published p) b.
Definition author (u : RequestUser) (p : Post.t) : bool :=
  same_user (Post.author p) u.
Definition category (c : Category.t) (p : Post.t) : bool :=
  match Post.category p with
  | Some k => k =? Category.pk c
  | None => false
  end.

(** [post.category]: the category row a post's key refers to, if any. *)
Definition related_category (db : DB) (p : Post.t) : option Category.t :=
  match Post.category p with
  | None => None
  | Some k => find (fun c => Category.pk c =? k) (categories db)
  end.

(** [post.author]: the user row a post's author key refers to. *)
Definition related_author (db : DB) (p : Post.t) : option User.t :=
  find (fun u => User.pk u =? Post.author p) (users db).

(** [category__is_published=b] joins the category table: a post whose
    category key is null has no joined row, and the comparison does not
    hold for it. *)
Definition category__is_published (db : DB) (b : bool) (p : Post.t)
  : bool :=
  match related_category db p with
  | Some c => Bool.eqb (Category.is_published c) b
  | None => false
  end.

(** [author__username=s] joins the user table. *)
Definition author__username (db : DB) (s : string) (p : Post.t) : bool :=
  match related_author db p with
  | Some u => String.eqb (User.username u) s
  | None => false
  end.

(** A post row annotated with [comment_count]. *)
Record Annotated := mkAnnotated { row : Post.t; comment_count : nat }.

(** [Count("comments")] for one post: the comment rows whose parent key is
    the post's key. *)
Definition Count_comments (db : DB) (p : Post.t) : nat :=
  List.length
    (filter (fun c => Comment.post c =? Post.pk p) (comments db)).

Definition annotate_comment_count (db : DB) (qs : list Post.t)
  : list Annotated :=
  map (fun p => mkAnnotated p (Count_comments db p)) qs.

(** [order_by("-pub_date")]: insertion into a list kept in descending
    order of publication timestamp; rows with equal timestamps keep their
    relative order.  The database leaves the order of equal timestamps
    open; the theorems below state the order by [newer_first] and the
    content up to permutation, which hold for any such order. *)
Fixpoint insert_desc (a : Annotated) (l : list Annotated)
  : list Annotated :=
  match l with
  | [] => [a]
  | b :: l' =>
      if (Post.pub_date (row b) <=? Post.pub_date (row a))%Z
      then a :: b :: l'
      else b :: insert_desc a l'
  end.

Fixpoint order_by_pub_date_desc (l : list Annotated) : list Annotated :=
  match l with
  | [] => []
  | a :: l' => insert_desc a (order_by_pub_date_desc l')
  end.

End ORM.

(** [Paginator(object_list, per_page)] with the defaults of [ListView]: no
    orphans, an empty first page allowed. *)
Module Paginator.

Definition num_pages (per_page count : nat) : nat :=
  (Nat.max 1 count + per_page - 1) / per_page.

(** [paginator.page(number)] as [ListView.paginate_queryset] calls it: an
    invalid page number becomes [Http404]. *)
Definition page {A} (per_page : nat) (object_list : list A) (number : nat)
  : Raises (list A) :=
  if (number <? 1)
     || (num_pages per_page (List.length object_list) <? number)
  then Http404
  else Return (firstn per_page
                 (skipn ((number - 1) * per_page) object_list)).

End Paginator.

(** ** [blog/views.py] *)

Definition MAX_QUANTITY_POST : nat := 10.

(** [get_post_data(self)], called with [self.model = Post] and
    [self.kwargs['id'] = id]. *)
Definition get_post_data (db : DB) (now : Z) (id : nat) : Raises Post.t :=
  ORM.get_object_or_404
    (filter
       (ORM.all_of [ORM.pub_date__lte now;
                    ORM.is_published true;
                    ORM.category__is_published db true])
       (posts db))
    [ORM.pk id].

(** The filter of [CommonListMixin.get_queryset]: the public-visibility
    predicate of the listings. *)
Definition isPubliclyVisible (db : DB) (now : Z) : Post.t -> bool :=
  ORM.all_of [ORM.is_published true;
              ORM.category__is_published db true;
              ORM.pub_date__lte now].

(** [CommonListMixin.get_queryset]. *)
Definition CommonListMixin_get_queryset (db : DB) (now : Z)
  : list ORM.Annotated :=
  let queryset_select := filter (isPubliclyVisible db now) (posts db) in
  let queryset_filter :=
    ORM.order_by_pub_date_desc
      (ORM.annotate_comment_count db queryset_select) in
  queryset_filter.

Definition CommonListMixin_paginate_by : nat := MAX_QUANTITY_POST.

(** [ListView.get] on a queryset: the page of the request, or [Http404]. *)
Definition ListView_get (qs : Raises (list ORM.Annotated)) (page : nat)
  : Raises (list ORM.Annotated) :=
  object_list <- qs ;;
  Paginator.page CommonListMixin_paginate_by object_list page.

(** [IndexListView] inherits [get_queryset]. *)
Definition IndexListView_get_queryset := CommonListMixin_get_queryset.

(** [PostDetailView.get_object]. *)
Definition PostDetailView_get_object (db : DB) (now : Z)
  (user : RequestUser) (id : nat) : Raises Post.t :=
  if is_authenticated user then
    ORM.get_object_or_404
      (filter
         (ORM.all_of
            [ORM.Q_or (ORM.author user)
               (ORM.Q_and
                  (ORM.Q_and (ORM.pub_date__lte now) (ORM.is_published true))
                  (ORM.category__is_published db true));
             ORM.pk id])
         (posts db))
      []
  else get_post_data db now id.

(** [CategoryPostsListView.get_queryset]. *)
Definition CategoryPostsListView_get_queryset (db : DB) (now : Z)
  (category_slug : string) : Raises (list ORM.Annotated) :=
  category <- ORM.get_object_or_404 (categories db)
                [ORM.Category_slug category_slug;
                 ORM.Category_is_published true] ;;
  Return (filter (fun a => ORM.category category (ORM.row a))
            (CommonListMixin_get_queryset db now)).

(** [ProfileListView.get_queryset]. *)
Definition ProfileListView_get_queryset (db : DB) (now : Z)
  (request_user : RequestUser) (username : string)
  : Raises (list ORM.Annotated) :=
  user <- ORM.get_object_or_404 (users db) [ORM.User_username username] ;;
  if same_user (User.pk user) request_user then
    Return
      (ORM.order_by_pub_date_desc
         (ORM.annotate_comment_count db
            (filter
               (ORM.all_of [ORM.author__username db (User.username user)])
               (posts db))))
  else
    let queryset := CommonListMixin_get_queryset db now in
    Return queryset.

(** ** [blog/urls.py]: the list pages *)

(** The three URL patterns served by a list view: [index],
    [category_posts] and [profile]. *)
Inductive ListUrl :=
| index
| category_posts (category_slug : string)
| profile (username : string).

(** The page [page] of the list view a URL is routed to, for a request by
    [request_user]. *)
Definition list_page (db : DB) (now : Z) (request_user : RequestUser)
  (url : ListUrl) (page : nat) : Raises (list ORM.Annotated) :=
  ListView_get
    match url with
    | index => Return (IndexListView_get_queryset db now)
    | category_posts category_slug =>
        CategoryPostsListView_get_queryset db now category_slug
    | profile username =>
        ProfileListView_get_queryset db now request_user username
    end
    page.

(** ** Requests, responses and views that write *)

(** The targets of [redirect] and [reverse] in the views, and the login page
    of [LoginRequiredMixin]. *)
Inductive Url :=
| blog_post_detail (id : nat)
| blog_profile (username : string)
| login_url.

Inductive Response :=
| HttpResponseRedirect (to : Url)
| TemplateResponse (template_name : string)
| HttpResponseNotFound
| HttpResponseNotAllowed
| HttpResponseOptions
| ServerError.

(** The request methods a generic view tells apart: [GET], [POST], [PUT],
    [HEAD] and [OPTIONS] have a handler in Django's [CreateView]
    ([View.options] answers with the empty response that lists the allowed
    methods); every other method is answered with 405. *)
Inductive Method := GET | POST | PUT | HEAD | OPTIONS | OtherMethod.

Definition QueryDict := list (string * string).

Record HttpRequest := mkRequest {
  req_user : RequestUser;
  req_method : Method;
  req_POST : QueryDict
}.

(** The request as a form sees it when the method is not [POST]:
    [request.POST] is parsed from the body of a [POST] only and is empty
    otherwise. *)
Definition without_POST (request : HttpRequest) : HttpRequest :=
  mkRequest (req_user request) (req_method request) [].

(** A view reads the store and returns a response and the store it leaves. *)
Definition View := DB -> Response * DB.

Definition redirect (to : Url) : View :=
  fun db => (HttpResponseRedirect to, db).

Definition render (template_name : string) : View :=
  fun db => (TemplateResponse template_name, db).

(** An exception that leaves the view: [Http404] becomes the not-found
    response, any other one a server error; nothing was written. *)
Definition or_raise {A} (m : Raises A) (k : A -> View) : View :=
  fun db =>
    match m with
    | Return a => k a db
    | Http404 => (HttpResponseNotFound, db)
    | MultipleObjectsReturned => (ServerError, db)
    end.

(** [LoginRequiredMixin.dispatch]: an anonymous request is sent to the login
    page, any other goes on to the next [dispatch] of the class. *)
Definition LoginRequiredMixin_dispatch (super_dispatch : HttpRequest -> View)
  (request : HttpRequest) : View :=
  if negb (is_authenticated (req_user request))
  then redirect login_url
  else super_dispatch request.

(** The key a new row gets.  The database chooses it; what the views and
    the theorems below rely on is that no stored row has it, and the
    successor of the largest stored key stands for that choice. *)
Definition next_pk (pks : list nat) : nat := S (list_max pks).

Section Views.

(** What the rest of the method resolution order does with a request the
    mixins let through: [View.dispatch] of Django's [UpdateView] and
    [DeleteView] with the attributes of each class.  Framework code, taken
    as parameters; the arguments are the request and the keys of the URL
    ([post_id], then [comment_id]). *)
Variables PostUpdateView_super PostDeleteView_super
  : HttpRequest -> nat -> View.
Variables CommentUpdateView_super CommentDeleteView_super
  : HttpRequest -> nat -> nat -> View.

(** [CommentForm] of [blog/forms.py], which is not among the sources: the
    cleaned text of a submission, or [None] when it is not valid. *)
Variable CommentForm_clean : QueryDict -> option string.

(** [PostVerifyMixin.dispatch]; [self.get_object()] is the post whose key
    is the [post_id] of the URL. *)
Definition PostVerifyMixin_dispatch
  (super_dispatch : HttpRequest -> nat -> View)
  (request : HttpRequest) (post_id : nat) : View :=
  fun db =>
    or_raise (ORM.get_object_or_404 (posts db) [ORM.pk post_id])
      (fun object =>
         if negb (same_user (Post.author object) (req_user request))
         then redirect (blog_post_detail post_id)
         else LoginRequiredMixin_dispatch
                (fun r => super_dispatch r post_id) request)
      db.

Definition PostUpdateView_dispatch :=
  PostVerifyMixin_dispatch PostUpdateView_super.

Definition PostDeleteView_dispatch :=
  PostVerifyMixin_dispatch PostDeleteView_super.

(** [CommentMixin.get_object]. *)
Definition CommentMixin_get_object (db : DB) (comment_id : nat)
  : Raises Comment.t :=
  ORM.get_object_or_404 (comments db) [ORM.Comment_pk comment_id].

(** [CommentMixin.dispatch]. *)
Definition CommentMixin_dispatch
  (super_dispatch : HttpRequest -> nat -> nat -> View)
  (request : HttpRequest) (post_id comment_id : nat) : View :=
  fun db =>
    or_raise (CommentMixin_get_object db comment_id)
      (fun comment =>
         if negb (same_user (Comment.author comment) (req_user request))
         then redirect (blog_post_detail post_id)
         else LoginRequiredMixin_dispatch
                (fun r => super_dispatch r post_id comment_id) request)
      db.

Definition CommentUpdateView_dispatch :=
  CommentMixin_dispatch CommentUpdateView_super.

Definition CommentDeleteView_dispatch :=
  CommentMixin_dispatch CommentDeleteView_super.

(** [CommentCreateView.form_valid] on a valid form with cleaned [text],
    then [get_success_url]: the new row is appended to the comment table
    with the request's user as author and the post of the URL as parent. *)
Definition CommentCreateView_form_valid (now : Z) (request : HttpRequest)
  (post_id : nat) (text : string) : View :=
  fun db =>
    match req_user request with
    | AnonymousUser => (ServerError, db)
    | LoggedIn u =>
        or_raise (ORM.get_object_or_404 (posts db) [ORM.pk post_id])
          (fun post db =>
             let instance :=
               Comment.mk (next_pk (map Comment.pk (comments db)))
                 (Post.pk post) (User.pk u) text now in
             (HttpResponseRedirect (blog_post_detail post_id),
              mkDB (users db) (categories db) (posts db)
                (comments db ++ [instance])))
          db
    end.

(** [CreateView.post]: a valid form is saved, an invalid one is shown
    again. *)
Definition CommentCreateView_post (now : Z) (request : HttpRequest)
  (post_id : nat) : View :=
  match CommentForm_clean (req_POST request) with
  | Some text => CommentCreateView_form_valid now request post_id text
  | None => render "blog/comment.html"
  end.

(** [CommentCreateView.dispatch]: the login check, then the handler of the
    request's method.  [head] is [get]; [put] calls [post], and the form
    then reads [request.POST], which is empty for a request that is not a
    [POST]. *)
Definition CommentCreateView_dispatch (now : Z) (request : HttpRequest)
  (post_id : nat) : View :=
  LoginRequiredMixin_dispatch
    (fun request =>
       match req_method request with
       | GET | HEAD => render "blog/comment.html"
       | POST => CommentCreateView_post now request post_id
       | PUT => CommentCreateView_post now (without_POST request) post_id
       | OPTIONS => fun db => (HttpResponseOptions, db)
       | OtherMethod => fun db => (HttpResponseNotAllowed, db)
       end)
    request.

End Views.

(** ** Integrity constraints of the store *)

(** Modelled from the spec: the constraints the schema of [blog/models.py]
    puts on the tables.  Primary keys, usernames and slugs are unique, and a
    post's author key refers to a user row. *)
Record Constraints (db : DB) : Prop := mkConstraints {
  user_pk_unique : NoDup (map User.pk (users db));
  username_unique : NoDup (map User.username (users db));
  category_pk_unique : NoDup (map Category.pk (categories db));
  slug_unique : NoDup (map Category.slug (categories db));
  post_pk_unique : NoDup (map Post.pk (posts db));
  comment_pk_unique : NoDup (map Comment.pk (comments db));
  post_author_fk :
    forall p, In p (posts db) ->
              exists u, In u (users db) /\ User.pk u = Post.author p
}.

(** ** Order of a listing *)

(** The order of a listing: publication timestamps do not increase. *)
Definition newer_first (a b : ORM.Annotated) : Prop :=
  (Post.pub_date (ORM.row b) <= Post.pub_date (ORM.row a))%Z.

(** ** The visibility rule in the words of the specification *)

(** [isPubliclyVisible(post, now)] as the specification words it: the post's
    flag, its timestamp, and a category that is null or published. *)
Definition spec_isPubliclyVisible (db : DB) (now : Z) (p : Post.t) : bool :=
  Post.is_published p
  && (Post.pub_date p <=? now)%Z
  && match Post.category p with
     | None => true
     | Some _ =>
         match ORM.related_category db p with
         | Some c => Category.is_published c
         | None => false
         end
     end.

(** ** A small store *)

Module Example.

Definition alice := User.mk 1 "alice".
Definition bob := User.mk 2 "bob".
Definition carol := User.mk 3 "carol".

Definition travel := Category.mk 1 "Travel" "travel" true.
Definition drafts := Category.mk 2 "Drafts" "drafts" false.

(** Alice's and Bob's published posts in a published category. *)
Definition post_alice :=
  Post.mk 1 1 (Some 1) None "Lisbon" "..." 100 true 90.
Definition post_bob :=
  Post.mk 2 2 (Some 1) None "Oslo" "..." 150 true 140.
(** A published post without a category. *)
Definition post_uncategorised :=
  Post.mk 3 1 None None "Notes" "..." 100 true 90.
(** A published post in the unpublished category. *)
Definition post_in_drafts :=
  Post.mk 4 1 (Some 2) None "Draft" "..." 100 true 90.
(** An unpublished post and a post dated after [now]. *)
Definition post_unpublished :=
  Post.mk 5 2 (Some 1) None "Hidden" "..." 100 false 90.
Definition post_future :=
  Post.mk 6 1 (Some 1) None "Later" "..." 900 true 90.

Definition comment_1 := Comment.mk 1 1 2 "Nice" 110.
Definition comment_2 := Comment.mk 2 1 3 "Indeed" 120.
Definition comment_3 := Comment.mk 3 4 1 "To do" 130.

Definition db : DB :=
  mkDB [alice; bob; carol] [travel; drafts]
    [post_alice; post_bob; post_uncategorised; post_in_drafts;
     post_unpublished; post_future]
    [comment_1; comment_2; comment_3].

Definition now : Z := 200.

(** A store with 25 visible posts, timestamps 1 to 25. *)
Definition db25 : DB :=
  mkDB [alice] [travel]
    (map (fun i => Post.mk i 1 (Some 1) None "Post" "..."
                     (Z.of_nat i) true 0)
       (seq 1 25))
    [].

(** A comment form that accepts any submission with a [text] field that
    is not empty. *)
Definition CommentForm_clean (data : QueryDict) : option string :=
  match find (fun kv => String.eqb (fst kv) "text") data with
  | Some (_, EmptyString) => None
  | Some (_, s) => Some s
  | None => None
  end.

(** Requests by Carol and by an anonymous visitor, and Carol's comment. *)
Definition request_carol : HttpRequest :=
  mkRequest (LoggedIn carol) POST [].
Definition request_anonymous : HttpRequest :=
  mkRequest AnonymousUser POST [].
Definition request_comment : HttpRequest :=
  mkRequest (LoggedIn carol) POST [("text"%string, "Hello"%string)].

(** Generic views that only show their template. *)
Definition show_post_form (_ : HttpRequest) (_ : nat) : View :=
  render "blog/create.html".
Definition show_comment_form (_ : HttpRequest) (_ _ : nat) : View :=
  render "blog/comment.html".

End Example.

(** ** [blog/urls.py] *)

(** The URL configuration of the application: routes written with
    [path()], matched against the part of the request path that follows the
    place where the configuration is mounted, and [reverse] from a name and
    its arguments back to a path. *)
Module Urls.

(** The path converters the routes use: [<int:..>] matches [[0-9]+] and
    gives a number, [<slug:..>] matches [[-a-zA-Z0-9_]+] and gives the text
    itself. *)
Inductive Converter := IntConverter | SlugConverter.

(** A route is a sequence of literal text and converters with a name. *)
Inductive Part :=
| Lit (text : string)
| Param (converter : Converter) (name : string).

(** A captured or supplied argument. *)
Inductive Value := VInt (n : nat) | VStr (s : string).

(** The view classes of [views.py] that the configuration names. *)
Inductive ViewClass :=
| IndexListView | PostDetailView | PostCreateView | PostUpdateView
| PostDeleteView | CommentCreateView | CommentUpdateView
| CommentDeleteView | CategoryPostsListView | ProfileListView
| ProfileUpdateView.

(** [path(route, view, name=name)]. *)
Record Pattern := path {
  route : list Part;
  view : ViewClass;
  name : string
}.

(** [path(prefix, include(patterns))]: every included route follows the
    prefix. *)
Definition include (prefix : string) (patterns : list Pattern)
  : list Pattern :=
  map (fun p => path (Lit prefix :: route p) (view p) (name p)) patterns.

Definition is_digit (c : Ascii.ascii) : bool :=
  let n := Ascii.nat_of_ascii c in (48 <=? n) && (n <=? 57).

Definition is_slug_char (c : Ascii.ascii) : bool :=
  let n := Ascii.nat_of_ascii c in
  is_digit c
  || ((65 <=? n) && (n <=? 90))
  || ((97 <=? n) && (n <=? 122))
  || (n =? 45) || (n =? 95).

Definition char_class (c : Converter) : Ascii.ascii -> bool :=
  match c with
  | IntConverter => is_digit
  | SlugConverter => is_slug_char
  end.

(** The longest prefix of characters of a class, and what follows it.  In
    every route of this configuration a converter is followed by literal
    text that starts with a slash, which is in neither class, so the
    longest prefix is the only text the converter's expression can match. *)
Fixpoint span (f : Ascii.ascii -> bool) (s : string) : string * string :=
  match s with
  | EmptyString => (EmptyString, EmptyString)
  | String c r =>
      if f c
      then let (a, b) := span f r in (String c a, b)
      else (EmptyString, s)
  end.

(** What is left of [s] after the literal [lit], if [s] starts with it. *)
Fixpoint strip_prefix (lit s : string) : option string :=
  match lit with
  | EmptyString => Some s
  | String c lit' =>
      match s with
      | EmptyString => None
      | String d s' => if Ascii.eqb c d then strip_prefix lit' s' else None
      end
  end.

(** [str(n)] and [int(text)] in decimal. *)
Definition str_of_nat (n : nat) : string :=
  DecimalString.NilEmpty.string_of_uint (Nat.to_uint n).

Definition int_of_str (text : string) : option nat :=
  option_map Nat.of_uint (DecimalString.NilEmpty.uint_of_string text).

(** [converter.to_python(text)]. *)
Definition to_python (c : Converter) (text : string) : option Value :=
  match c with
  | IntConverter => option_map VInt (int_of_str text)
  | SlugConverter => Some (VStr text)
  end.

(** Matching a route against a path: the keyword arguments captured and
    the rest of the path. *)
Fixpoint match_route (r : list Part) (s : string)
  : option (list (string * Value) * string) :=
  match r with
  | [] => Some ([], s)
  | Lit text :: r' =>
      match strip_prefix text s with
      | Some s' => match_route r' s'
      | None => None
      end
  | Param c name :: r' =>
      match span (char_class c) s with
      | (EmptyString, _) => None
      | (text, rest) =>
          match to_python c text, match_route r' rest with
          | Some v, Some (kwargs, rest') => Some ((name, v) :: kwargs, rest')
          | _, _ => None
          end
      end
  end.

(** [posts_urls] and [urlpatterns] of [blog/urls.py]. *)
Definition posts_urls : list Pattern :=
  [ path [Param IntConverter "id"; Lit "/"]
      PostDetailView "post_detail";
    path [Lit "create/"]
      PostCreateView "create_post";
    path [Param IntConverter "post_id"; Lit "/edit/"]
      PostUpdateView "edit_post";
    path [Param IntConverter "post_id"; Lit "/delete/"]
      PostDeleteView "delete_post";
    path [Param IntConverter "post_id"; Lit "/comment/"]
      CommentCreateView "add_comment";
    path [Param IntConverter "post_id"; Lit "/edit_comment/";
          Param IntConverter "comment_id"; Lit "/"]
      CommentUpdateView "edit_comment";
    path [Param IntConverter "post_id"; Lit "/delete_comment/";
          Param IntConverter "comment_id"; Lit "/"]
      CommentDeleteView "delete_comment" ].

Definition urlpatterns : list Pattern :=
  [ path [] IndexListView "index" ]
  ++ include "posts/" posts_urls
  ++ [ path [Lit "category/"; Param SlugConverter "category_slug"; Lit "/"]
         CategoryPostsListView "category_posts";
       path [Lit "profile/"; Param SlugConverter "username"; Lit "/"]
         ProfileListView "profile";
       path [Lit "edit_profile/"]
         ProfileUpdateView "edit_profile" ].

(** What resolving a path gives: the view, the name of the pattern and the
    captured keyword arguments. *)
Record ResolverMatch := mkMatch {
  func : ViewClass;
  url_name : string;
  kwargs : list (string * Value)
}.

(** [resolve(path)]: the first pattern whose route matches the whole path;
    [None] stands for [Resolver404]. *)
Fixpoint resolve_in (patterns : list Pattern) (s : string)
  : option ResolverMatch :=
  match patterns with
  | [] => None
  | p :: ps =>
      match match_route (route p) s with
      | Some (kw, EmptyString) => Some (mkMatch (view p) (name p) kw)
      | _ => resolve_in ps s
      end
  end.

Definition resolve (s : string) : option ResolverMatch :=
  resolve_in urlpatterns s.

(** [str(value)], and [converter.to_url] checked against the converter's
    expression as [reverse] does: the text must be a non-empty run of
    characters of the class. *)
Definition str (v : Value) : string :=
  match v with
  | VInt n => str_of_nat n
  | VStr s => s
  end.

Definition fullmatch (c : Converter) (text : string) : bool :=
  match span (char_class c) text with
  | (String _ _, EmptyString) => true
  | _ => false
  end.

(** Filling a route with arguments, taken in the order of the route's
    converters; [None] when an argument is missing, left over, or does not
    match its converter. *)
Fixpoint fill (r : list Part) (args : list Value) : option string :=
  match r with
  | [] => match args with [] => Some EmptyString | _ :: _ => None end
  | Lit text :: r' => option_map (String.append text) (fill r' args)
  | Param c _ :: r' =>
      match args with
      | [] => None
      | v :: args' =>
          if fullmatch c (str v)
          then option_map (String.append (str v)) (fill r' args')
          else None
      end
  end.

(** [reverse("blog:" + name, args=args)]; [None] stands for
    [NoReverseMatch]. *)
Definition reverse (url_name : string) (args : list Value)
  : option string :=
  match find (fun p => String.eqb (name p) url_name) urlpatterns with
  | Some p => fill (route p) args
  | None => None
  end.

(** What a route can capture: one argument for each converter, under the
    converter's name, a number for [<int:..>] and a text of the slug class
    for [<slug:..>]. *)
Definition typed (c : Converter) (v : Value) : Prop :=
  match c, v with
  | IntConverter, VInt _ => True
  | SlugConverter, VStr text => fullmatch SlugConverter text = true
  | _, _ => False
  end.

Fixpoint captured (r : list Part) (kw : list (string * Value)) : Prop :=
  match r with
  | [] => kw = []
  | Lit _ :: r' => captured r' kw
  | Param c name :: r' =>
      match kw with
      | [] => False
      | (k, v) :: kw' => k = name /\ typed c v /\ captured r' kw'
      end
  end.

(** A name and its arguments reverse to a path that resolves to the view
    and the keyword arguments given. *)
Definition round_trip (url_name : string) (args : list Value)
  (v : ViewClass) (kw : list (string * Value)) : Prop :=
  exists s,
    reverse url_name args = Some s
    /\ resolve s = Some (mkMatch v url_name kw).

End Urls.

(** ** [blog/views.py]: creating a post *)

Section PostViews.

(** [PostForm] of [blog/forms.py], which is not among the sources: the
    instance a valid submission gives, or [None] when it is not valid.  The
    key, the author and the creation time of the instance are not the
    form's to set. *)
Variable PostForm_clean : QueryDict -> option Post.t.

(** [PostCreateView.get_success_url]: [reverse("blog:profile",
    args=[self.request.user])], where the user is written as its
    username. *)
Definition PostCreateView_get_success_url (u : User.t) : option Url :=
  match Urls.reverse "profile" [Urls.VStr (User.username u)] with
  | Some _ => Some (blog_profile (User.username u))
  | None => None
  end.

(** [PostCreateView.form_valid] on a valid form: the author of the instance
    is the request's user, the row is saved with a new key, and the response
    redirects to [get_success_url].  The row is saved before the URL is
    reversed; when reversing raises, the response is a server error. *)
Definition PostCreateView_form_valid (now : Z) (request : HttpRequest)
  (instance : Post.t) : View :=
  fun db =>
    match req_user request with
    | AnonymousUser => (ServerError, db)
    | LoggedIn u =>
        let object :=
          Post.mk (next_pk (map Post.pk (posts db))) (User.pk u)
            (Post.category instance) (Post.location instance)
            (Post.title instance) (Post.text instance)
            (Post.pub_date instance) (Post.is_published instance) now in
        let saved :=
          mkDB (users db) (categories db) (posts db ++ [object])
            (comments db) in
        match PostCreateView_get_success_url u with
        | Some url => (HttpResponseRedirect url, saved)
        | None => (ServerError, saved)
        end
    end.

(** [CreateView.post]: a valid form is saved, an invalid one is shown
    again. *)
Definition PostCreateView_post (now : Z) (request : HttpRequest) : View :=
  match PostForm_clean (req_POST request) with
  | Some instance => PostCreateView_form_valid now request instance
  | None => render "blog/create.html"
  end.

(** [PostCreateView.dispatch]: the login check, then [CreateView]'s handler
    of the request's method.  [head] is [get]; [put] calls [post], and the
    form then reads [request.POST], which is empty for a request that is
    not a [POST]. *)
Definition PostCreateView_dispatch (now : Z) (request : HttpRequest)
  : View :=
  LoginRequiredMixin_dispatch
    (fun request =>
       match req_method request with
       | GET | HEAD => render "blog/create.html"
       | POST => PostCreateView_post now request
       | PUT => PostCreateView_post now (without_POST request)
       | OPTIONS => fun db => (HttpResponseOptions, db)
       | OtherMethod => fun db => (HttpResponseNotAllowed, db)
       end)
    request.

End PostViews.

(** ** More of the example store *)

Module ExampleForms.

(** A post form that accepts a submission with a [title] and builds an
    unpublished post in the unpublished category from it. *)
Definition PostForm_clean (data : QueryDict) : option Post.t :=
  match find (fun kv => String.eqb (fst kv) "title") data with
  | Some (_, t) => Some (Post.mk 0 0 (Some 2) None t "..." 50 false 0)
  | None => None
  end.

Definition request_post : HttpRequest :=
  mkRequest (LoggedIn Example.carol) POST
    [("title"%string, "Plans"%string)].

(** Forms that accept every submission, the empty one included. *)
Definition CommentForm_any (_ : QueryDict) : option string :=
  Some EmptyString.
Definition PostForm_any (_ : QueryDict) : option Post.t :=
  Some (Post.mk 0 0 None None "" "" 0 true 0).

Definition request_put : HttpRequest :=
  mkRequest (LoggedIn Example.carol) PUT [].

(** Dave, whose username has a dot. *)
Definition dave := User.mk 4 "dave.k".

(** An empty store. *)
Definition empty_db : DB := mkDB [] [] [] [].

End ExampleForms.

(** ** Proof automation *)

(** Distinct keys of a table that is written out. *)
Ltac distinct_keys :=
  simpl; repeat constructor; simpl; intuition (try discriminate; try lia).

(** ** Lemmas on the ORM operations *)

Unset Implicit Arguments.

Section Queries.

Variable A : Type.

Lemma filter_filter (f g : A -> bool) (l : list A) :
  filter f (filter g l) = filter (fun x => g x && f x) l.
Proof.
  induction l as [|a l IH]; simpl; [reflexivity|].
  destruct (g a); simpl; [destruct (f a)|]; now rewrite IH.
Qed.

Lemma filter_none (q : A -> bool) (l : list A) :
  (forall y, In y l -> q y = false) -> filter q l = [].
Proof.
  induction l as [|a l IH]; simpl; intros H; [reflexivity|].
  rewrite (H a (or_introl eq_refl)). apply IH. intros y Hy. apply H. now right.
Qed.

(** A lookup that pins a unique key selects at most the row with it. *)
Lemma filter_unique_key (K : Type) (key : A -> K) (q : A -> bool)
      (l : list A) (x : A) :
  NoDup (map key l) -> In x l ->
  (forall y, q y = true -> key y = key x) ->
  filter q l = if q x then [x] else [].
Proof.
  intros Hnd Hin Hkey.
  induction l as [|a l IH]; simpl in *; [contradiction|].
  inversion Hnd as [|? ? Hnotin Hnd']; subst.
  destruct Hin as [->|Hin].
  - assert (Hrest : filter q l = []).
    { apply filter_none. intros y Hy.
      destruct (q y) eqn:E; [|reflexivity].
      exfalso. apply Hnotin. rewrite <- (Hkey y E). now apply in_map. }
    rewrite Hrest. now destruct (q x).
  - assert (Ha : q a = false).
    { destruct (q a) eqn:E; [|reflexivity].
      exfalso. apply Hnotin. rewrite (Hkey a E). now apply in_map. }
    rewrite Ha. now apply IH.
Qed.

Lemma find_unique_key (key : A -> nat) (l : list A) (x : A) :
  NoDup (map key l) -> In x l ->
  find (fun y => key y =? key x) l = Some x.
Proof.
  intros Hnd Hin.
  induction l as [|a l IH]; simpl in *; [contradiction|].
  inversion Hnd as [|? ? Hnotin Hnd']; subst.
  destruct Hin as [->|Hin]; [now rewrite Nat.eqb_refl|].
  destruct (key a =? key x) eqn:E; [|now apply IH].
  apply Nat.eqb_eq in E. exfalso. apply Hnotin. rewrite E. now apply in_map.
Qed.

End Queries.

Lemma all_of_cons A (q : A -> bool) (qs : list (A -> bool)) (x : A) :
  ORM.all_of (q :: qs) x = q x && ORM.all_of qs x.
Proof. reflexivity. Qed.

Lemma all_of_nil A (x : A) : ORM.all_of [] x = true.
Proof. reflexivity. Qed.

(** The detail query of [get_post_data] and the listing query use the same
    three lookups, in a different order. *)
Lemma get_post_data_filter (db : DB) (now : Z) (p : Post.t) :
  ORM.all_of [ORM.pub_date__lte now; ORM.is_published true;
              ORM.category__is_published db true] p
  = isPubliclyVisible db now p.
Proof.
  unfold isPubliclyVisible. rewrite !all_of_cons, !all_of_nil.
  destruct (ORM.pub_date__lte now p), (ORM.is_published true p),
    (ORM.category__is_published db true p); reflexivity.
Qed.

(** The public part of the query of [PostDetailView.get_object]. *)
Lemma detail_Q_public (db : DB) (now : Z) (p : Post.t) :
  ORM.Q_and (ORM.Q_and (ORM.pub_date__lte now) (ORM.is_published true))
    (ORM.category__is_published db true) p
  = isPubliclyVisible db now p.
Proof.
  rewrite <- get_post_data_filter. unfold ORM.Q_and.
  rewrite !all_of_cons, all_of_nil. now rewrite andb_true_r, andb_assoc.
Qed.

Lemma isPubliclyVisible_spec (db : DB) (now : Z) (p : Post.t) :
  isPubliclyVisible db now p = true <->
  Post.is_published p = true /\
  (Post.pub_date p <= now)%Z /\
  exists c, ORM.related_category db p = Some c /\
            Category.is_published c = true.
Proof.
  unfold isPubliclyVisible. rewrite !all_of_cons, all_of_nil, andb_true_r.
  unfold ORM.is_published, ORM.category__is_published, ORM.pub_date__lte.
  rewrite !andb_true_iff, Z.leb_le, eqb_true_iff.
  destruct (ORM.related_category db p) as [c|].
  - rewrite eqb_true_iff. split.
    + intros (H1 & H2 & H3). repeat split; trivial. now exists c.
    + intros (H1 & H2 & c' & Hc & H3). injection Hc as <-. tauto.
  - split.
    + intros (_ & H & _). discriminate.
    + intros (_ & _ & c & Hc & _). discriminate.
Qed.

(** ** C1: the public-visibility predicate *)

(** C1 (as the code has it): the predicate used by the listing query and by
    the detail query of [get_post_data] holds exactly when the post's own
    flag is set, its timestamp is at most [now] (inclusive), and its category
    is a row whose flag is set; a post whose category is null does not
    satisfy it, and on every post that has a category the predicate agrees
    with the rule as the specification words it. *)
Theorem C1_isPubliclyVisible_requires_category :
  forall (db : DB) (now : Z) (p : Post.t),
    (isPubliclyVisible db now p = true <->
       Post.is_published p = true /\
       (Post.pub_date p <= now)%Z /\
       exists c, ORM.related_category db p = Some c /\
                 Category.is_published c = true)
    /\ ORM.all_of [ORM.pub_date__lte now; ORM.is_published true;
                   ORM.category__is_published db true] p
       = isPubliclyVisible db now p
    /\ (Post.pub_date p = now -> Post.is_published p = true ->
        (exists c, ORM.related_category db p = Some c /\
                   Category.is_published c = true) ->
        isPubliclyVisible db now p = true)
    /\ (Post.category p = None -> isPubliclyVisible db now p = false)
    /\ (Post.category p <> None ->
        isPubliclyVisible db now p = spec_isPubliclyVisible db now p).
Proof.
  intros db now p. split; [apply isPubliclyVisible_spec|].
  split; [apply get_post_data_filter|]. split; [|split].
  - intros Hnow Hpub Hcat. apply isPubliclyVisible_spec.
    repeat split; auto. lia.
  - intros Hnone. unfold isPubliclyVisible. rewrite !all_of_cons.
    unfold ORM.category__is_published, ORM.related_category.
    rewrite Hnone. now rewrite andb_false_r.
  - intros Hcat. unfold isPubliclyVisible, spec_isPubliclyVisible.
    rewrite !all_of_cons, all_of_nil, andb_true_r.
    unfold ORM.is_published, ORM.category__is_published, ORM.pub_date__lte.
    destruct (Post.category p) eqn:Ek; [|now elim Hcat].
    destruct (ORM.related_category db p) as [c|];
      destruct (Post.is_published p), (Post.pub_date p <=? now)%Z;
      simpl; try reflexivity; now destruct (Category.is_published c).
Qed.

(** C1, the claim as stated fails: a published post without a category,
    dated before [now], satisfies the specification's rule and is rejected by
    the predicate of the queries. *)
Lemma C1_null_category_counterexample :
  Post.is_published Example.post_uncategorised = true
  /\ (Post.pub_date Example.post_uncategorised <= Example.now)%Z
  /\ Post.category Example.post_uncategorised = None
  /\ spec_isPubliclyVisible Example.db Example.now Example.post_uncategorised
     = true
  /\ isPubliclyVisible Example.db Example.now Example.post_uncategorised
     = false
  /\ get_post_data Example.db Example.now 3 = Http404
  /\ ~ In Example.post_uncategorised
       (map ORM.row (CommonListMixin_get_queryset Example.db Example.now)).
Proof.
  repeat split; try reflexivity.
  - vm_compute. discriminate.
  - vm_compute. intuition discriminate.
Qed.

(** C1, at a post of the example store. *)
Lemma C1_isPubliclyVisible_witness :
  isPubliclyVisible Example.db Example.now Example.post_alice = true.
Proof.
  apply (proj1 (C1_isPubliclyVisible_requires_category
                  Example.db Example.now Example.post_alice)).
  split; [reflexivity|]. split; [vm_compute; discriminate|].
  exists Example.travel. split; reflexivity.
Defined.

(** ** Lookups by key *)

Lemma get_object_or_404_unique A (K : Type) (key : A -> K) (qs : list A)
      (lookups : list (A -> bool)) (x : A) :
  NoDup (map key qs) -> In x qs ->
  (forall y, ORM.all_of lookups y = true -> key y = key x) ->
  ORM.get_object_or_404 qs lookups
  = if ORM.all_of lookups x then Return x else Http404.
Proof.
  intros Hnd Hin Hkey. unfold ORM.get_object_or_404.
  rewrite (filter_unique_key A K key _ qs x Hnd Hin Hkey).
  now destruct (ORM.all_of lookups x).
Qed.

Lemma get_object_or_404_filtered_unique A (K : Type) (key : A -> K)
      (qs : list A) (q : A -> bool) (lookups : list (A -> bool)) (x : A) :
  NoDup (map key qs) -> In x qs ->
  (forall y, q y && ORM.all_of lookups y = true -> key y = key x) ->
  ORM.get_object_or_404 (filter q qs) lookups
  = if q x && ORM.all_of lookups x then Return x else Http404.
Proof.
  intros Hnd Hin Hkey. unfold ORM.get_object_or_404.
  rewrite filter_filter, (filter_unique_key A K key _ qs x Hnd Hin Hkey).
  now destruct (q x && ORM.all_of lookups x).
Qed.

Lemma get_object_or_404_absent A (qs : list A) (q : A -> bool)
      (lookups : list (A -> bool)) :
  (forall y, In y qs -> q y && ORM.all_of lookups y = false) ->
  ORM.get_object_or_404 (filter q qs) lookups = Http404.
Proof.
  intros H. unfold ORM.get_object_or_404.
  now rewrite filter_filter, filter_none.
Qed.

Lemma pk_lookup (i : nat) (p : Post.t) : ORM.pk i p = true <-> Post.pk p = i.
Proof. apply Nat.eqb_eq. Qed.

(** ** C3: the detail view *)

(** What [PostDetailView.get_object] returns for the key of a stored post. *)
Lemma PostDetailView_get_object_stored (db : DB) (now : Z) (V : RequestUser)
      (P : Post.t) :
  NoDup (map Post.pk (posts db)) -> In P (posts db) ->
  PostDetailView_get_object db now V (Post.pk P)
  = if same_user (Post.author P) V || isPubliclyVisible db now P
    then Return P else Http404.
Proof.
  intros Hnd Hin. unfold PostDetailView_get_object, get_post_data.
  destruct V as [|u]; simpl is_authenticated; cbv iota.
  - rewrite (get_object_or_404_filtered_unique _ _ Post.pk _ _ _ P Hnd Hin).
    + rewrite get_post_data_filter, all_of_cons, all_of_nil.
      unfold ORM.pk. rewrite Nat.eqb_refl. simpl.
      now rewrite !andb_true_r.
    + intros y Hy. apply andb_true_iff in Hy as [_ Hy].
      rewrite all_of_cons in Hy. apply andb_true_iff in Hy as [Hy _].
      now apply pk_lookup.
  - rewrite (get_object_or_404_filtered_unique _ _ Post.pk _ _ _ P Hnd Hin).
    + rewrite !all_of_cons, !all_of_nil. unfold ORM.Q_or at 1.
      rewrite detail_Q_public. unfold ORM.pk, ORM.author.
      rewrite Nat.eqb_refl. now rewrite !andb_true_r.
    + intros y Hy. apply andb_true_iff in Hy as [Hy _].
      rewrite !all_of_cons in Hy. apply andb_true_iff in Hy as [_ Hy].
      apply andb_true_iff in Hy as [Hy _]. now apply pk_lookup.
Qed.

(** A key that no stored post has is not found, whoever asks. *)
Lemma PostDetailView_get_object_absent (db : DB) (now : Z) (V : RequestUser)
      (id : nat) :
  (forall p, In p (posts db) -> Post.pk p <> id) ->
  PostDetailView_get_object db now V id = Http404.
Proof.
  intros Habs. unfold PostDetailView_get_object, get_post_data.
  assert (Hpk : forall y, In y (posts db) -> ORM.pk id y = false).
  { intros y Hy. apply Nat.eqb_neq. now apply Habs. }
  destruct (is_authenticated V); apply get_object_or_404_absent;
    intros y Hy; rewrite !all_of_cons, (Hpk y Hy);
    now rewrite ?andb_false_r, ?andb_false_l.
Qed.

(** C3 (as the code has it): for a stored post [P], a viewer [V] and a
    time [now], the detail view returns [P] exactly when [V] is the author
    of [P] or [P] satisfies the predicate of the queries: its flag is set,
    its timestamp is at most [now], and its category is a row whose flag is
    set.  In every other case, in particular for an anonymous viewer of an
    unpublished post and for every viewer but the author of a post without
    a category, it raises [Http404], the result it also gives for a key no
    post has. *)
Theorem C3_post_detail_author_or_public :
  forall (db : DB) (now : Z) (V : RequestUser) (P : Post.t),
    NoDup (map Post.pk (posts db)) -> In P (posts db) ->
    (PostDetailView_get_object db now V (Post.pk P) = Return P <->
       same_user (Post.author P) V = true \/
       isPubliclyVisible db now P = true)
    /\ (PostDetailView_get_object db now V (Post.pk P) <> Return P ->
        PostDetailView_get_object db now V (Post.pk P) = Http404)
    /\ (V = AnonymousUser -> Post.is_published P = false ->
        PostDetailView_get_object db now V (Post.pk P) = Http404)
    /\ (forall id, (forall p, In p (posts db) -> Post.pk p <> id) ->
                   PostDetailView_get_object db now V id = Http404)
    /\ (PostDetailView_get_object db now V (Post.pk P) = Return P <->
          same_user (Post.author P) V = true \/
          (Post.is_published P = true /\
           (Post.pub_date P <= now)%Z /\
           exists c, ORM.related_category db P = Some c /\
                     Category.is_published c = true))
    /\ (Post.category P = None -> same_user (Post.author P) V = false ->
        PostDetailView_get_object db now V (Post.pk P) = Http404).
Proof.
  intros db now V P Hnd Hin.
  rewrite (PostDetailView_get_object_stored db now V P Hnd Hin).
  repeat split.
  - destruct (same_user (Post.author P) V || isPubliclyVisible db now P) eqn:E;
      [intros _; now apply orb_true_iff|discriminate].
  - intros H. apply orb_true_iff in H. now rewrite H.
  - destruct (same_user (Post.author P) V || isPubliclyVisible db now P);
      [intros H; now elim H|reflexivity].
  - intros -> Hunpub. simpl.
    destruct (isPubliclyVisible db now P) eqn:E; [|reflexivity].
    apply isPubliclyVisible_spec in E. destruct E as [E _]. congruence.
  - intros id Habs. now apply PostDetailView_get_object_absent.
  - destruct (same_user (Post.author P) V || isPubliclyVisible db now P) eqn:E;
      [intros _|discriminate].
    apply orb_true_iff in E as [E|E]; [now left|right].
    now apply isPubliclyVisible_spec.
  - intros [H|H]; [now rewrite H|].
    apply isPubliclyVisible_spec in H. rewrite H. now rewrite orb_true_r.
  - intros Hnone Hother. rewrite Hother. simpl.
    destruct (isPubliclyVisible db now P) eqn:E; [|reflexivity].
    apply isPubliclyVisible_spec in E as (_ & _ & c & Hc & _).
    unfold ORM.related_category in Hc. rewrite Hnone in Hc. discriminate.
Qed.

(** C3, the claim as stated fails: the published post without a category,
    dated before [now], is publicly visible in the words of the
    specification, and the detail view raises [Http404] for an anonymous
    viewer and for Bob, who is not its author. *)
Lemma C3_null_category_counterexample :
  In Example.post_uncategorised (posts Example.db)
  /\ spec_isPubliclyVisible Example.db Example.now
       Example.post_uncategorised = true
  /\ PostDetailView_get_object Example.db Example.now AnonymousUser
       (Post.pk Example.post_uncategorised) = Http404
  /\ same_user (Post.author Example.post_uncategorised)
       (LoggedIn Example.bob) = false
  /\ PostDetailView_get_object Example.db Example.now
       (LoggedIn Example.bob) (Post.pk Example.post_uncategorised)
     = Http404
  /\ ~ (PostDetailView_get_object Example.db Example.now AnonymousUser
          (Post.pk Example.post_uncategorised)
        = Return Example.post_uncategorised
        <-> same_user (Post.author Example.post_uncategorised)
              AnonymousUser = true
            \/ spec_isPubliclyVisible Example.db Example.now
                 Example.post_uncategorised = true).
Proof.
  split; [simpl; tauto|]. repeat (split; [reflexivity|]).
  intros [_ H]. assert (E := H (or_intror eq_refl)). discriminate E.
Qed.

(** ** Annotation and ordering *)

Lemma map_row_annotate (db : DB) (qs : list Post.t) :
  map ORM.row (ORM.annotate_comment_count db qs) = qs.
Proof.
  unfold ORM.annotate_comment_count. rewrite map_map. simpl. apply map_id.
Qed.

Lemma annotate_counts (db : DB) (qs : list Post.t) (a : ORM.Annotated) :
  In a (ORM.annotate_comment_count db qs) ->
  ORM.comment_count a = ORM.Count_comments db (ORM.row a).
Proof.
  unfold ORM.annotate_comment_count. rewrite in_map_iff.
  intros (p & <- & _). reflexivity.
Qed.

Lemma insert_desc_perm (a : ORM.Annotated) (l : list ORM.Annotated) :
  Permutation (ORM.insert_desc a l) (a :: l).
Proof.
  induction l as [|b l IH]; simpl; [reflexivity|].
  destruct (Post.pub_date (ORM.row b) <=? Post.pub_date (ORM.row a))%Z;
    [reflexivity|].
  rewrite IH. apply perm_swap.
Qed.

Lemma order_by_perm (l : list ORM.Annotated) :
  Permutation (ORM.order_by_pub_date_desc l) l.
Proof.
  induction l as [|a l IH]; simpl; [reflexivity|].
  rewrite insert_desc_perm. now constructor.
Qed.

Lemma insert_desc_sorted (a : ORM.Annotated) (l : list ORM.Annotated) :
  StronglySorted newer_first l ->
  StronglySorted newer_first (ORM.insert_desc a l).
Proof.
  induction 1 as [|b l Hs IH Hall]; simpl.
  - constructor; constructor.
  - destruct (Post.pub_date (ORM.row b) <=? Post.pub_date (ORM.row a))%Z
      eqn:E.
    + apply Z.leb_le in E. constructor; [now constructor|].
      constructor; [exact E|].
      rewrite Forall_forall in *. intros c Hc.
      specialize (Hall c Hc). unfold newer_first in *. lia.
    + apply Z.leb_gt in E. constructor; [exact IH|].
      rewrite Forall_forall in *. intros c Hc.
      apply (Permutation_in _ (insert_desc_perm a l)) in Hc.
      destruct Hc as [<-|Hc]; [unfold newer_first; lia|now apply Hall].
Qed.

Lemma order_by_sorted (l : list ORM.Annotated) :
  StronglySorted newer_first (ORM.order_by_pub_date_desc l).
Proof.
  induction l as [|a l IH]; simpl; [constructor|now apply insert_desc_sorted].
Qed.

(** An ordered, annotated queryset holds the rows it was built from, each
    with its count. *)
Lemma ordered_annotated_rows (db : DB) (qs : list Post.t) :
  Permutation
    (map ORM.row
       (ORM.order_by_pub_date_desc (ORM.annotate_comment_count db qs)))
    qs.
Proof.
  rewrite (Permutation_map ORM.row (order_by_perm _)).
  now rewrite map_row_annotate.
Qed.

Lemma ordered_annotated_counts (db : DB) (qs : list Post.t)
      (a : ORM.Annotated) :
  In a (ORM.order_by_pub_date_desc (ORM.annotate_comment_count db qs)) ->
  ORM.comment_count a = ORM.Count_comments db (ORM.row a).
Proof.
  intros H. apply (Permutation_in _ (order_by_perm _)) in H.
  now apply annotate_counts in H.
Qed.

Lemma CommonListMixin_rows (db : DB) (now : Z) :
  Permutation (map ORM.row (CommonListMixin_get_queryset db now))
    (filter (isPubliclyVisible db now) (posts db)).
Proof. apply ordered_annotated_rows. Qed.

Lemma CommonListMixin_In (db : DB) (now : Z) (p : Post.t) :
  In p (map ORM.row (CommonListMixin_get_queryset db now)) <->
  In p (posts db) /\ isPubliclyVisible db now p = true.
Proof.
  rewrite <- filter_In. split; apply Permutation_in;
    [|symmetry]; apply CommonListMixin_rows.
Qed.

(** ** Pages *)

Lemma pages_concat A (k : nat) (l : list A) (m : nat) :
  0 < k -> List.length l <= m * k ->
  List.concat (map (fun n => firstn k (skipn ((n - 1) * k) l)) (seq 1 m)) = l.
Proof.
  intros Hk. revert l. induction m as [|m IH]; intros l Hlen.
  - simpl in *. destruct l; [reflexivity|simpl in Hlen; lia].
  - rewrite <- cons_seq, <- seq_shift. simpl map. simpl List.concat.
    rewrite map_map.
    rewrite (map_ext_in _
               (fun n => firstn k (skipn ((n - 1) * k) (skipn k l)))).
    + rewrite IH; [apply firstn_skipn|]. rewrite length_skipn.
      change (S m * k) with (k + m * k) in Hlen. lia.
    + intros n Hn. apply in_seq in Hn. rewrite skipn_skipn. f_equal. f_equal.
      destruct n as [|n]; [lia|]. simpl. rewrite Nat.sub_0_r. lia.
Qed.

Lemma num_pages_covers (k count : nat) :
  0 < k -> count <= Paginator.num_pages k count * k.
Proof.
  intros Hk. unfold Paginator.num_pages.
  assert (H := Nat.div_mod_eq (Nat.max 1 count + k - 1) k).
  assert (H' := Nat.mod_upper_bound (Nat.max 1 count + k - 1) k).
  nia.
Qed.

Lemma page_in_range A (k : nat) (l : list A) (n : nat) :
  1 <= n <= Paginator.num_pages k (List.length l) ->
  Paginator.page k l n = Return (firstn k (skipn ((n - 1) * k) l)).
Proof.
  intros [H1 H2]. unfold Paginator.page.
  destruct (n <? 1) eqn:E1; [apply Nat.ltb_lt in E1; lia|].
  destruct (Paginator.num_pages k (List.length l) <? n) eqn:E2;
    [apply Nat.ltb_lt in E2; lia|reflexivity].
Qed.

Lemma page_Return A (k : nat) (l p : list A) (n : nat) :
  Paginator.page k l n = Return p ->
  p = firstn k (skipn ((n - 1) * k) l) /\ List.length p <= k.
Proof.
  unfold Paginator.page.
  destruct ((n <? 1) || (Paginator.num_pages k (List.length l) <? n));
    [discriminate|].
  intros [= <-]. split; [reflexivity|]. rewrite length_firstn. lia.
Qed.

Lemma page_incl A (k : nat) (l p : list A) (n : nat) (a : A) :
  Paginator.page k l n = Return p -> In a p -> In a l.
Proof.
  intros H Ha. apply page_Return in H as [-> _].
  rewrite <- (firstn_skipn ((n - 1) * k) l). apply in_or_app. right.
  rewrite <- (firstn_skipn k (skipn _ l)). apply in_or_app. now left.
Qed.

(** ** C6: the public listing *)

(** C6 (as the code has it): the queryset of the index page holds exactly
    the stored posts that satisfy the predicate of the queries (flag set,
    timestamp at most [now], category a row whose flag is set; a post
    without a category is never listed), newest publication timestamp
    first; its pages have at most 10
    rows (the fixed page size) and, put end to end, give the queryset
    back.  With 25 visible posts there are three pages, of 10, 10 and 5
    rows, and no fourth. *)
Theorem C6_public_listing_pages :
  forall (db : DB) (now : Z),
    let qs := IndexListView_get_queryset db now in
    Permutation (map ORM.row qs)
      (filter (isPubliclyVisible db now) (posts db))
    /\ (forall p, In p (map ORM.row qs) <->
                  In p (posts db) /\ isPubliclyVisible db now p = true)
    /\ (forall p, In p (map ORM.row qs) <->
                  In p (posts db)
                  /\ Post.is_published p = true
                  /\ (Post.pub_date p <= now)%Z
                  /\ exists c, ORM.related_category db p = Some c /\
                               Category.is_published c = true)
    /\ (forall p, Post.category p = None -> ~ In p (map ORM.row qs))
    /\ StronglySorted newer_first qs
    /\ CommonListMixin_paginate_by = 10
    /\ (forall n l, ListView_get (Return qs) n = Return l ->
                    List.length l <= 10)
    /\ List.concat
         (map (fun n => firstn 10 (skipn ((n - 1) * 10) qs))
            (seq 1 (Paginator.num_pages 10 (List.length qs)))) = qs
    /\ (forall n, 1 <= n <= Paginator.num_pages 10 (List.length qs) ->
                  ListView_get (Return qs) n
                  = Return (firstn 10 (skipn ((n - 1) * 10) qs)))
    /\ (List.length (filter (isPubliclyVisible db now) (posts db)) = 25 ->
        exists l1 l2 l3,
          ListView_get (Return qs) 1 = Return l1
          /\ ListView_get (Return qs) 2 = Return l2
          /\ ListView_get (Return qs) 3 = Return l3
          /\ ListView_get (Return qs) 4 = Http404
          /\ List.length l1 = 10 /\ List.length l2 = 10
          /\ List.length l3 = 5
          /\ qs = l1 ++ l2 ++ l3).
Proof.
  intros db now qs.
  assert (Hperm := CommonListMixin_rows db now). fold qs in Hperm.
  split; [exact Hperm|].
  split; [intros p; apply CommonListMixin_In|].
  split; [intros p; unfold qs, IndexListView_get_queryset;
          now rewrite CommonListMixin_In, isPubliclyVisible_spec|].
  split.
  { intros p Hnone Hp. unfold qs, IndexListView_get_queryset in Hp.
    apply CommonListMixin_In in Hp as [_ Hp].
    apply isPubliclyVisible_spec in Hp as (_ & _ & c & Hc & _).
    unfold ORM.related_category in Hc. rewrite Hnone in Hc. discriminate. }
  split; [apply order_by_sorted|].
  split; [reflexivity|].
  split; [intros n l H; now apply page_Return in H|].
  split; [apply pages_concat; [lia|apply num_pages_covers; lia]|].
  split; [intros n Hn; now apply page_in_range|].
  intros H25.
  assert (Hlen : List.length qs = 25).
  { rewrite <- H25, <- (Permutation_length Hperm). now rewrite length_map. }
  clearbody qs.
  exists (firstn 10 qs), (firstn 10 (skipn 10 qs)),
    (firstn 10 (skipn 20 qs)).
  unfold ListView_get, bind, Paginator.page, CommonListMixin_paginate_by,
    MAX_QUANTITY_POST.
  rewrite Hlen. repeat (split; [reflexivity|]).
  rewrite !length_firstn, !length_skipn, Hlen.
  repeat (split; [reflexivity|]).
  rewrite (firstn_all2 (n := 10) (skipn 20 qs));
    [|rewrite length_skipn; lia].
  change 20 with (10 + 10). rewrite <- skipn_skipn.
  now rewrite !firstn_skipn.
Qed.

(** C6, the claim as stated fails: the published post without a category,
    dated before [now], is publicly visible in the words of the
    specification and is not in the listing, whose only page holds Bob's
    and Alice's posts. *)
Lemma C6_null_category_counterexample :
  In Example.post_uncategorised (posts Example.db)
  /\ spec_isPubliclyVisible Example.db Example.now
       Example.post_uncategorised = true
  /\ map ORM.row (IndexListView_get_queryset Example.db Example.now)
     = [Example.post_bob; Example.post_alice]
  /\ ~ In Example.post_uncategorised
         (map ORM.row (IndexListView_get_queryset Example.db Example.now))
  /\ ~ (In Example.post_uncategorised
          (map ORM.row (IndexListView_get_queryset Example.db Example.now))
        <-> In Example.post_uncategorised (posts Example.db)
            /\ spec_isPubliclyVisible Example.db Example.now
                 Example.post_uncategorised = true).
Proof.
  assert (Hnot : ~ In Example.post_uncategorised
                   (map ORM.row
                      (IndexListView_get_queryset Example.db Example.now))).
  { vm_compute. intuition discriminate. }
  split; [simpl; tauto|]. repeat (split; [reflexivity|]).
  split; [exact Hnot|].
  intros [_ H]. apply Hnot, H. split; [simpl; tauto|reflexivity].
Qed.

(** ** The example store satisfies the constraints *)

Lemma Example_constraints : Constraints Example.db.
Proof.
  constructor; [distinct_keys..|].
  intros p Hp. simpl in Hp.
  repeat (destruct Hp as [<-|Hp];
          [first [exists Example.alice; simpl; intuition congruence
                 |exists Example.bob; simpl; intuition congruence]|]).
  contradiction.
Qed.

Lemma Example_db25_visible :
  List.length
    (filter (isPubliclyVisible Example.db25 100) (posts Example.db25)) = 25.
Proof. reflexivity. Qed.

(** C3, in the example store: Alice sees her post in the unpublished
    category, an anonymous viewer does not see the unpublished post. *)
Lemma C3_post_detail_witness :
  PostDetailView_get_object Example.db Example.now
    (LoggedIn Example.alice) 4 = Return Example.post_in_drafts
  /\ PostDetailView_get_object Example.db Example.now AnonymousUser 5
     = Http404.
Proof.
  split.
  - apply (proj1 (C3_post_detail_author_or_public Example.db Example.now
                    (LoggedIn Example.alice) Example.post_in_drafts
                    (post_pk_unique Example_constraints)
                    ltac:(simpl; tauto))).
    left. reflexivity.
  - apply (proj1 (proj2 (proj2
             (C3_post_detail_author_or_public Example.db Example.now
                AnonymousUser Example.post_unpublished
                (post_pk_unique Example_constraints)
                ltac:(simpl; tauto)))));
      reflexivity.
Defined.

(** C6, in the store with 25 visible posts. *)
Lemma C6_public_listing_witness :
  exists l1 l2 l3,
    list_page Example.db25 100 AnonymousUser index 1 = Return l1
    /\ list_page Example.db25 100 AnonymousUser index 2 = Return l2
    /\ list_page Example.db25 100 AnonymousUser index 3 = Return l3
    /\ list_page Example.db25 100 AnonymousUser index 4 = Http404
    /\ List.length l1 = 10 /\ List.length l2 = 10 /\ List.length l3 = 5
    /\ IndexListView_get_queryset Example.db25 100 = l1 ++ l2 ++ l3.
Proof.
  apply (C6_public_listing_pages Example.db25 100).
  exact Example_db25_visible.
Defined.

(** ** C5: the owner's profile page *)

Lemma NoDup_map_inj A B (f : A -> B) (l : list A) (x y : A) :
  NoDup (map f l) -> In x l -> In y l -> f x = f y -> x = y.
Proof.
  induction l as [|a l IH]; simpl; [contradiction|].
  intros Hnd Hx Hy Hf. inversion Hnd as [|? ? Hnotin Hnd']; subst.
  destruct Hx as [->|Hx], Hy as [->|Hy]; auto.
  - exfalso. apply Hnotin. rewrite Hf. now apply in_map.
  - exfalso. apply Hnotin. rewrite <- Hf. now apply in_map.
Qed.

(** With the constraints, [author__username] of a stored user's name
    selects the posts whose author key is that user's. *)
Lemma author__username_author (db : DB) (U : User.t) (p : Post.t) :
  Constraints db -> In U (users db) -> In p (posts db) ->
  ORM.author__username db (User.username U) p
  = (Post.author p =? User.pk U).
Proof.
  intros C HU Hp. unfold ORM.author__username, ORM.related_author.
  destruct (post_author_fk C p Hp) as (u & Hu & Hpk).
  rewrite <- Hpk.
  rewrite (find_unique_key _ User.pk _ u (user_pk_unique C) Hu).
  destruct (User.pk u =? User.pk U) eqn:E.
  - apply Nat.eqb_eq in E.
    rewrite (NoDup_map_inj _ _ User.pk _ u U (user_pk_unique C) Hu HU E).
    apply String.eqb_refl.
  - apply String.eqb_neq. intros Hname. apply Nat.eqb_neq in E. apply E.
    now rewrite (NoDup_map_inj _ _ User.username _ u U
                   (username_unique C) Hu HU Hname).
Qed.

Lemma ProfileListView_user (db : DB) (U : User.t) :
  Constraints db -> In U (users db) ->
  ORM.get_object_or_404 (users db) [ORM.User_username (User.username U)]
  = Return U.
Proof.
  intros C HU.
  rewrite (get_object_or_404_unique _ _ User.username _ _ U
             (username_unique C) HU).
  - rewrite all_of_cons. unfold ORM.User_username.
    now rewrite String.eqb_refl.
  - intros y Hy. rewrite all_of_cons in Hy.
    apply andb_true_iff in Hy as [Hy _]. now apply String.eqb_eq in Hy.
Qed.

(** C5: when the viewer of a stored user's profile page is that user, the
    queryset holds every post the user wrote, whatever its flag, timestamp
    or category, and nothing else, each with the number of all its
    comments. *)
Theorem C5_own_profile_lists_all_posts :
  forall (db : DB) (now : Z) (U : User.t),
    Constraints db -> In U (users db) ->
    exists l,
      ProfileListView_get_queryset db now (LoggedIn U) (User.username U)
      = Return l
      /\ Permutation (map ORM.row l)
           (filter (fun p => Post.author p =? User.pk U) (posts db))
      /\ (forall p, In p (posts db) -> Post.author p = User.pk U ->
                    In p (map ORM.row l))
      /\ (forall a, In a l ->
            ORM.comment_count a
            = List.length
                (filter (fun c => Comment.post c =? Post.pk (ORM.row a))
                   (comments db))).
Proof.
  intros db now U C HU. eexists.
  unfold ProfileListView_get_queryset.
  rewrite (ProfileListView_user db U C HU). simpl bind.
  rewrite Nat.eqb_refl.
  split; [reflexivity|].
  assert (Hf : filter
                 (ORM.all_of [ORM.author__username db (User.username U)])
                 (posts db)
               = filter (fun p => Post.author p =? User.pk U) (posts db)).
  { apply filter_ext_in. intros p Hp.
    rewrite all_of_cons, all_of_nil, andb_true_r.
    now apply author__username_author. }
  rewrite Hf.
  assert (Hperm := ordered_annotated_rows db
                     (filter (fun p => Post.author p =? User.pk U)
                        (posts db))).
  split; [exact Hperm|]. split.
  - intros p Hp Hauth. apply (Permutation_in _ (Permutation_sym Hperm)).
    apply filter_In. split; [exact Hp|]. now apply Nat.eqb_eq.
  - intros a Ha. now apply ordered_annotated_counts in Ha.
Qed.

(** C5, in the example store: Alice's own profile lists her four posts,
    the hidden ones included. *)
Lemma C5_own_profile_witness :
  exists l,
    ProfileListView_get_queryset Example.db Example.now
      (LoggedIn Example.alice) "alice" = Return l
    /\ In Example.post_uncategorised (map ORM.row l)
    /\ In Example.post_in_drafts (map ORM.row l)
    /\ In Example.post_future (map ORM.row l).
Proof.
  destruct (C5_own_profile_lists_all_posts Example.db Example.now
              Example.alice Example_constraints ltac:(simpl; tauto))
    as (l & Hl & _ & Hall & _).
  exists l. split; [exact Hl|].
  repeat split; apply Hall; simpl; tauto.
Defined.

(** ** C7: posts in an unpublished category *)

Lemma related_category_stored (db : DB) (p : Post.t) (c : Category.t) :
  ORM.related_category db p = Some c -> In c (categories db).
Proof.
  unfold ORM.related_category. destruct (Post.category p); [|discriminate].
  intros H. now apply find_some in H.
Qed.

Lemma unpublished_category_hidden (db : DB) (now : Z) (p : Post.t)
      (c : Category.t) :
  ORM.related_category db p = Some c -> Category.is_published c = false ->
  isPubliclyVisible db now p = false.
Proof.
  intros Hc Hunpub. destruct (isPubliclyVisible db now p) eqn:E; [|reflexivity].
  apply isPubliclyVisible_spec in E as (_ & _ & c' & Hc' & Hpub). congruence.
Qed.

(** The page of a stored category whose flag is not set is not found. *)
Lemma CategoryPostsListView_unpublished (db : DB) (now : Z) (c : Category.t) :
  Constraints db -> In c (categories db) ->
  Category.is_published c = false ->
  CategoryPostsListView_get_queryset db now (Category.slug c) = Http404.
Proof.
  intros C Hc Hunpub. unfold CategoryPostsListView_get_queryset.
  rewrite (get_object_or_404_unique _ _ Category.slug _ _ c
             (slug_unique C) Hc).
  - rewrite !all_of_cons. unfold ORM.Category_is_published.
    rewrite Hunpub. simpl Bool.eqb. now rewrite andb_false_r.
  - intros y Hy. rewrite all_of_cons in Hy.
    apply andb_true_iff in Hy as [Hy _]. now apply String.eqb_eq in Hy.
Qed.

Lemma In_map_filter A B (f : A -> B) (q : A -> bool) (l : list A) (b : B) :
  In b (map f (filter q l)) -> In b (map f l).
Proof.
  rewrite !in_map_iff. intros (a & Ha & Hin). exists a.
  apply filter_In in Hin. tauto.
Qed.

(** C7: a stored post whose category is a row with the flag off is in no
    index listing and on no category page, whatever its own flag and
    timestamp; the page of its category is not found, as is the page of any
    stored category with the flag off; its author still gets it from the
    detail view. *)
Theorem C7_unpublished_category_hides_post :
  forall (db : DB) (now : Z) (P : Post.t) (c : Category.t),
    Constraints db -> In P (posts db) ->
    ORM.related_category db P = Some c ->
    Category.is_published c = false ->
    ~ In P (map ORM.row (IndexListView_get_queryset db now))
    /\ (forall category_slug l,
          CategoryPostsListView_get_queryset db now category_slug = Return l ->
          ~ In P (map ORM.row l))
    /\ CategoryPostsListView_get_queryset db now (Category.slug c) = Http404
    /\ (forall c', In c' (categories db) ->
                   Category.is_published c' = false ->
                   CategoryPostsListView_get_queryset db now
                     (Category.slug c') = Http404)
    /\ (forall u, User.pk u = Post.author P ->
                  PostDetailView_get_object db now (LoggedIn u) (Post.pk P)
                  = Return P).
Proof.
  intros db now P c C HP Hc Hunpub.
  assert (Hhidden := unpublished_category_hidden db now P c Hc Hunpub).
  assert (Hindex : ~ In P (map ORM.row (CommonListMixin_get_queryset db now))).
  { intros H. apply CommonListMixin_In in H as [_ H]. congruence. }
  split; [exact Hindex|]. split.
  - intros category_slug l Hl HPl. apply Hindex.
    unfold CategoryPostsListView_get_queryset, bind in Hl.
    destruct (ORM.get_object_or_404 _ _); try discriminate.
    injection Hl as <-. now apply In_map_filter in HPl.
  - split.
    + apply CategoryPostsListView_unpublished; trivial.
      now apply related_category_stored with (p := P).
    + split.
      * intros c' Hc' Hun'. now apply CategoryPostsListView_unpublished.
      * intros u Hu.
        rewrite (PostDetailView_get_object_stored db now (LoggedIn u) P
                   (post_pk_unique C) HP).
        simpl. now rewrite Hu, Nat.eqb_refl.
Qed.

(** C7, in the example store, for Alice's published post in the
    unpublished category. *)
Lemma C7_unpublished_category_witness :
  Post.is_published Example.post_in_drafts = true
  /\ ~ In Example.post_in_drafts
       (map ORM.row (IndexListView_get_queryset Example.db Example.now))
  /\ CategoryPostsListView_get_queryset Example.db Example.now "drafts"
     = Http404
  /\ PostDetailView_get_object Example.db Example.now
       (LoggedIn Example.alice) 4 = Return Example.post_in_drafts.
Proof.
  destruct (C7_unpublished_category_hides_post Example.db Example.now
              Example.post_in_drafts Example.drafts Example_constraints
              ltac:(simpl; tauto) eq_refl eq_refl)
    as (Hindex & _ & Hpage & _ & Hdetail).
  split; [reflexivity|]. split; [exact Hindex|]. split; [exact Hpage|].
  apply (Hdetail Example.alice). reflexivity.
Defined.

(** ** C8: comment counts *)

(** C8: on a page of any list view (index, category, profile), the count
    attached to a post is the number of all comment rows whose parent is
    that post; no other condition selects the comments counted. *)
Theorem C8_comment_count_is_total :
  forall (db : DB) (now : Z) (viewer : RequestUser) (url : ListUrl)
         (n : nat) (page : list ORM.Annotated) (a : ORM.Annotated),
    list_page db now viewer url n = Return page -> In a page ->
    ORM.comment_count a
    = List.length
        (filter (fun c => Comment.post c =? Post.pk (ORM.row a))
           (comments db)).
Proof.
  intros db now viewer url n page a Hpage Ha.
  change (ORM.comment_count a = ORM.Count_comments db (ORM.row a)).
  unfold list_page, ListView_get in Hpage.
  assert (Hcommon : forall x, In x (CommonListMixin_get_queryset db now) ->
            ORM.comment_count x = ORM.Count_comments db (ORM.row x)).
  { intros x. apply ordered_annotated_counts. }
  destruct url as [|category_slug|username]; simpl bind in Hpage.
  - apply Hcommon. eapply page_incl; eauto.
  - unfold CategoryPostsListView_get_queryset, bind in Hpage.
    destruct (ORM.get_object_or_404 _ _); try discriminate.
    apply (page_incl _ _ _ _ _ a Hpage) in Ha.
    apply filter_In in Ha as [Ha _]. now apply Hcommon.
  - unfold ProfileListView_get_queryset, bind in Hpage.
    destruct (ORM.get_object_or_404 _ _) as [user| |]; try discriminate.
    destruct (same_user (User.pk user) viewer).
    + apply (page_incl _ _ _ _ _ a Hpage) in Ha.
      now apply ordered_annotated_counts in Ha.
    + apply Hcommon. eapply page_incl; eauto.
Qed.

(** C8, in the example store: on the index page Alice's post carries the
    count 2, the number of its comments, which two other users wrote. *)
Lemma C8_comment_count_witness :
  list_page Example.db Example.now AnonymousUser index 1
  = Return [ORM.mkAnnotated Example.post_bob 0;
            ORM.mkAnnotated Example.post_alice 2]
  /\ ORM.comment_count (ORM.mkAnnotated Example.post_alice 2)
     = List.length
         (filter (fun c => Comment.post c =? 1) (comments Example.db)).
Proof.
  split; [reflexivity|].
  apply (C8_comment_count_is_total Example.db Example.now AnonymousUser
           index 1
           [ORM.mkAnnotated Example.post_bob 0;
            ORM.mkAnnotated Example.post_alice 2]);
    [reflexivity|simpl; tauto].
Defined.

(** ** C2: the profile page seen by another viewer *)

(** What [ProfileListView.get_queryset] returns when the viewer is not the
    profile's user: the queryset of the index page, whoever the authors
    are. *)
Lemma ProfileListView_other_viewer (db : DB) (now : Z) (V : RequestUser)
      (U : User.t) :
  Constraints db -> In U (users db) -> same_user (User.pk U) V = false ->
  ProfileListView_get_queryset db now V (User.username U)
  = Return (CommonListMixin_get_queryset db now).
Proof.
  intros C HU HV. unfold ProfileListView_get_queryset.
  rewrite (ProfileListView_user db U C HU). simpl bind. now rewrite HV.
Qed.

(** C2, evaluated: Alice's profile page, requested by an anonymous viewer
    and by Carol, lists Bob's visible post next to Alice's. *)
Theorem C2_profile_lists_other_authors :
  ProfileListView_get_queryset Example.db Example.now AnonymousUser "alice"
  = Return [ORM.mkAnnotated Example.post_bob 0;
            ORM.mkAnnotated Example.post_alice 2]
  /\ ProfileListView_get_queryset Example.db Example.now
       (LoggedIn Example.carol) "alice"
     = Return [ORM.mkAnnotated Example.post_bob 0;
               ORM.mkAnnotated Example.post_alice 2]
  /\ Post.author Example.post_bob <> User.pk Example.alice
  /\ isPubliclyVisible Example.db Example.now Example.post_bob = true.
Proof.
  repeat split; try reflexivity. vm_compute. discriminate.
Qed.

(** ** C4 and C10: who may edit and delete *)

Lemma get_post_by_pk (db : DB) (E : Post.t) :
  NoDup (map Post.pk (posts db)) -> In E (posts db) ->
  ORM.get_object_or_404 (posts db) [ORM.pk (Post.pk E)] = Return E.
Proof.
  intros Hnd Hin.
  rewrite (get_object_or_404_unique _ _ Post.pk _ _ E Hnd Hin).
  - rewrite all_of_cons. unfold ORM.pk. now rewrite Nat.eqb_refl.
  - intros y Hy. rewrite all_of_cons in Hy.
    apply andb_true_iff in Hy as [Hy _]. now apply pk_lookup.
Qed.

Lemma get_comment_by_pk (db : DB) (E : Comment.t) :
  NoDup (map Comment.pk (comments db)) -> In E (comments db) ->
  CommentMixin_get_object db (Comment.pk E) = Return E.
Proof.
  intros Hnd Hin. unfold CommentMixin_get_object.
  rewrite (get_object_or_404_unique _ _ Comment.pk _ _ E Hnd Hin).
  - rewrite all_of_cons. unfold ORM.Comment_pk. now rewrite Nat.eqb_refl.
  - intros y Hy. rewrite all_of_cons in Hy.
    apply andb_true_iff in Hy as [Hy _]. now apply Nat.eqb_eq in Hy.
Qed.

(** A request by anyone but the author of a stored post stops in
    [PostVerifyMixin.dispatch]. *)
Lemma PostVerifyMixin_dispatch_denied
      (super_dispatch : HttpRequest -> nat -> View) (db : DB)
      (request : HttpRequest) (E : Post.t) :
  NoDup (map Post.pk (posts db)) -> In E (posts db) ->
  same_user (Post.author E) (req_user request) = false ->
  PostVerifyMixin_dispatch super_dispatch request (Post.pk E) db
  = (HttpResponseRedirect (blog_post_detail (Post.pk E)), db).
Proof.
  intros Hnd Hin Hother. unfold PostVerifyMixin_dispatch, or_raise.
  rewrite (get_post_by_pk db E Hnd Hin). now rewrite Hother.
Qed.

(** A request by anyone but the author of a stored comment stops in
    [CommentMixin.dispatch], with the [post_id] of its URL. *)
Lemma CommentMixin_dispatch_denied
      (super_dispatch : HttpRequest -> nat -> nat -> View) (db : DB)
      (request : HttpRequest) (post_id : nat) (E : Comment.t) :
  NoDup (map Comment.pk (comments db)) -> In E (comments db) ->
  same_user (Comment.author E) (req_user request) = false ->
  CommentMixin_dispatch super_dispatch request post_id (Comment.pk E) db
  = (HttpResponseRedirect (blog_post_detail post_id), db).
Proof.
  intros Hnd Hin Hother. unfold CommentMixin_dispatch, or_raise.
  rewrite (get_comment_by_pk db E Hnd Hin). now rewrite Hother.
Qed.

Section Denials.

Variables PostUpdateView_super PostDeleteView_super
  : HttpRequest -> nat -> View.
Variables CommentUpdateView_super CommentDeleteView_super
  : HttpRequest -> nat -> nat -> View.

(** C4 (as the code has it): a request by an authenticated user who is
    not the author of the stored post or comment [E] writes nothing and is
    answered by a redirect, not by an error; for a post the target is the
    detail page of [E], for a comment it is the detail page of the post
    named by the [post_id] of the request's URL, which is the parent of
    [E] when the URL names the parent. *)
Theorem C4_denied_mutation_redirects :
  forall (db : DB) (request : HttpRequest) (A : User.t),
    req_user request = LoggedIn A ->
    (forall E : Post.t,
        NoDup (map Post.pk (posts db)) -> In E (posts db) ->
        User.pk A <> Post.author E ->
        PostUpdateView_dispatch PostUpdateView_super request
          (Post.pk E) db
        = (HttpResponseRedirect (blog_post_detail (Post.pk E)), db)
        /\ PostDeleteView_dispatch PostDeleteView_super request
             (Post.pk E) db
           = (HttpResponseRedirect (blog_post_detail (Post.pk E)), db))
    /\ (forall (E : Comment.t) (post_id : nat),
           NoDup (map Comment.pk (comments db)) -> In E (comments db) ->
           User.pk A <> Comment.author E ->
           CommentUpdateView_dispatch CommentUpdateView_super request
             post_id (Comment.pk E) db
           = (HttpResponseRedirect (blog_post_detail post_id), db)
           /\ CommentDeleteView_dispatch CommentDeleteView_super request
                post_id (Comment.pk E) db
              = (HttpResponseRedirect (blog_post_detail post_id), db)).
Proof.
  intros db request A HA. split.
  - intros E Hnd Hin Hother.
    assert (H : same_user (Post.author E) (req_user request) = false).
    { rewrite HA. simpl. apply Nat.eqb_neq. congruence. }
    split; now apply PostVerifyMixin_dispatch_denied.
  - intros E post_id Hnd Hin Hother.
    assert (H : same_user (Comment.author E) (req_user request) = false).
    { rewrite HA. simpl. apply Nat.eqb_neq. congruence. }
    split; now apply CommentMixin_dispatch_denied.
Qed.

(** C10: an anonymous request to edit or delete a stored post or comment is
    answered by a redirect to the post detail page of the request's
    [post_id] (for a comment addressed through its parent post, the
    parent's page), and the store is left as it was.  It is not the login
    redirect: the author comparison comes first in [dispatch], and
    [LoginRequiredMixin.dispatch], which would send the request to the
    login page, is never reached. *)
Theorem C10_anonymous_mutation_redirects_to_detail :
  forall (db : DB) (request : HttpRequest),
    req_user request = AnonymousUser ->
    (forall E : Post.t,
        NoDup (map Post.pk (posts db)) -> In E (posts db) ->
        PostUpdateView_dispatch PostUpdateView_super request
          (Post.pk E) db
        = (HttpResponseRedirect (blog_post_detail (Post.pk E)), db)
        /\ PostDeleteView_dispatch PostDeleteView_super request
             (Post.pk E) db
           = (HttpResponseRedirect (blog_post_detail (Post.pk E)), db))
    /\ (forall (E : Comment.t) (post_id : nat),
           NoDup (map Comment.pk (comments db)) -> In E (comments db) ->
           CommentUpdateView_dispatch CommentUpdateView_super request
             post_id (Comment.pk E) db
           = (HttpResponseRedirect (blog_post_detail post_id), db)
           /\ CommentDeleteView_dispatch CommentDeleteView_super request
                post_id (Comment.pk E) db
              = (HttpResponseRedirect (blog_post_detail post_id), db))
    /\ (forall id, HttpResponseRedirect (blog_post_detail id)
                   <> HttpResponseRedirect login_url)
    /\ (forall super_dispatch,
           LoginRequiredMixin_dispatch super_dispatch request db
           = (HttpResponseRedirect login_url, db)).
Proof.
  intros db request HA. split; [|split; [|split]].
  - intros E Hnd Hin.
    split; apply PostVerifyMixin_dispatch_denied; trivial; now rewrite HA.
  - intros E post_id Hnd Hin.
    split; apply CommentMixin_dispatch_denied; trivial; now rewrite HA.
  - intros id. discriminate.
  - intros super_dispatch. unfold LoginRequiredMixin_dispatch.
    now rewrite HA.
Qed.

End Denials.

(** C4, the claim as stated fails for a comment: Carol asks to edit Bob's
    comment 1, whose parent is post 1, through the URL of post 2; she is
    sent to the detail page of post 2, not of the parent. *)
Lemma C4_comment_redirect_counterexample :
  In Example.comment_1 (comments Example.db)
  /\ Comment.post Example.comment_1 = 1
  /\ User.pk Example.carol <> Comment.author Example.comment_1
  /\ CommentUpdateView_dispatch Example.show_comment_form
       Example.request_carol 2 1 Example.db
     = (HttpResponseRedirect (blog_post_detail 2), Example.db)
  /\ CommentDeleteView_dispatch Example.show_comment_form
       Example.request_carol 2 1 Example.db
     = (HttpResponseRedirect (blog_post_detail 2), Example.db)
  /\ HttpResponseRedirect (blog_post_detail 2)
     <> HttpResponseRedirect
          (blog_post_detail (Comment.post Example.comment_1)).
Proof.
  simpl. repeat split; try tauto; try discriminate; try reflexivity.
Qed.

(** C4, in the example store: Carol may neither edit Alice's post nor
    delete Bob's comment. *)
Lemma C4_denied_mutation_witness :
  PostUpdateView_dispatch Example.show_post_form Example.request_carol 1
    Example.db
  = (HttpResponseRedirect (blog_post_detail 1), Example.db)
  /\ CommentDeleteView_dispatch Example.show_comment_form
       Example.request_carol 1 1 Example.db
     = (HttpResponseRedirect (blog_post_detail 1), Example.db).
Proof.
  destruct (C4_denied_mutation_redirects
              Example.show_post_form Example.show_post_form
              Example.show_comment_form Example.show_comment_form
              Example.db Example.request_carol Example.carol eq_refl)
  as [Hpost Hcomment].
  split.
  - apply (Hpost Example.post_alice (post_pk_unique Example_constraints));
      [simpl; tauto|simpl; lia].
  - apply (Hcomment Example.comment_1 1
             (comment_pk_unique Example_constraints));
      [simpl; tauto|simpl; lia].
Defined.

(** C10, in the example store: an anonymous request to delete Alice's post
    and one to edit Bob's comment. *)
Lemma C10_anonymous_mutation_witness :
  PostDeleteView_dispatch Example.show_post_form Example.request_anonymous
    1 Example.db
  = (HttpResponseRedirect (blog_post_detail 1), Example.db)
  /\ CommentUpdateView_dispatch Example.show_comment_form
       Example.request_anonymous 1 1 Example.db
     = (HttpResponseRedirect (blog_post_detail 1), Example.db).
Proof.
  destruct (C10_anonymous_mutation_redirects_to_detail
              Example.show_post_form Example.show_post_form
              Example.show_comment_form Example.show_comment_form
              Example.db Example.request_anonymous eq_refl)
  as (Hpost & Hcomment & _).
  split.
  - apply (Hpost Example.post_alice (post_pk_unique Example_constraints)).
    simpl; tauto.
  - apply (Hcomment Example.comment_1 1
             (comment_pk_unique Example_constraints)).
    simpl; tauto.
Defined.

(** ** C9: creating a comment *)

Lemma next_pk_fresh (pks : list nat) : ~ In (next_pk pks) pks.
Proof.
  intros H. unfold next_pk in H.
  assert (Hle : Forall (fun k => k <= list_max pks) pks)
    by now apply list_max_le.
  rewrite Forall_forall in Hle. specialize (Hle _ H). lia.
Qed.

(** C9: a valid comment form posted by an authenticated user [V] to the
    comment URL of a stored post [P] appends one comment row, with author
    [V], parent [P] and a fresh key, and redirects to the detail page of
    [P].  Nothing is asked of [P]: neither its flag, its timestamp, its
    category nor its author enters. *)
Theorem C9_comment_created_on_any_post :
  forall (CommentForm_clean : QueryDict -> option string) (db : DB)
         (now : Z) (request : HttpRequest) (V : User.t) (P : Post.t)
         (text : string),
    NoDup (map Post.pk (posts db)) -> In P (posts db) ->
    req_user request = LoggedIn V -> req_method request = POST ->
    CommentForm_clean (req_POST request) = Some text ->
    exists c,
      CommentCreateView_dispatch CommentForm_clean now request (Post.pk P) db
      = (HttpResponseRedirect (blog_post_detail (Post.pk P)),
         mkDB (users db) (categories db) (posts db) (comments db ++ [c]))
      /\ Comment.author c = User.pk V
      /\ Comment.post c = Post.pk P
      /\ Comment.text c = text
      /\ ~ In (Comment.pk c) (map Comment.pk (comments db)).
Proof.
  intros clean db now request V P text Hnd Hin HV Hm Hvalid.
  eexists. split.
  - unfold CommentCreateView_dispatch, LoginRequiredMixin_dispatch.
    rewrite HV. simpl. rewrite Hm.
    unfold CommentCreateView_post. rewrite Hvalid.
    unfold CommentCreateView_form_valid, or_raise. rewrite HV.
    rewrite (get_post_by_pk db P Hnd Hin). reflexivity.
  - simpl. repeat split. apply next_pk_fresh.
Qed.

(** C9, in the example store: Carol comments on Bob's unpublished post. *)
Lemma C9_comment_created_witness :
  isPubliclyVisible Example.db Example.now Example.post_unpublished = false
  /\ Post.author Example.post_unpublished <> User.pk Example.carol
  /\ exists c,
       CommentCreateView_dispatch Example.CommentForm_clean 300
         Example.request_comment 5 Example.db
       = (HttpResponseRedirect (blog_post_detail 5),
          mkDB (users Example.db) (categories Example.db)
            (posts Example.db) (comments Example.db ++ [c]))
       /\ Comment.author c = 3 /\ Comment.post c = 5.
Proof.
  split; [reflexivity|]. split; [simpl; lia|].
  destruct (C9_comment_created_on_any_post Example.CommentForm_clean
              Example.db 300 Example.request_comment Example.carol
              Example.post_unpublished "Hello"
              (post_pk_unique Example_constraints) ltac:(simpl; tauto)
              eq_refl eq_refl eq_refl) as (c & Hc & Hauthor & Hpost & _).
  exists c. split; [exact Hc|]. split; [exact Hauthor|exact Hpost].
Defined.

(** * Further properties of the views *)

(** ** Lookups that return *)

Lemma get_object_or_404_Return A (qs : list A) (lookups : list (A -> bool))
      (x : A) :
  ORM.get_object_or_404 qs lookups = Return x ->
  In x qs /\ ORM.all_of lookups x = true.
Proof.
  unfold ORM.get_object_or_404.
  destruct (filter (ORM.all_of lookups) qs) as [|y [|z l]] eqn:E;
    try discriminate.
  intros [= ->]. apply filter_In. rewrite E. now left.
Qed.

Lemma get_object_or_404_none A (qs : list A) (lookups : list (A -> bool)) :
  (forall y, In y qs -> ORM.all_of lookups y = false) ->
  ORM.get_object_or_404 qs lookups = Http404.
Proof.
  intros H. unfold ORM.get_object_or_404. now rewrite filter_none.
Qed.

(** ** Order is kept by filtering and by cutting pages *)

Section SortedSublists.

Variable A : Type.
Variable R : A -> A -> Prop.

Lemma In_firstn (n : nat) (l : list A) (a : A) :
  In a (firstn n l) -> In a l.
Proof.
  intros H. rewrite <- (firstn_skipn n l). apply in_or_app. now left.
Qed.

Lemma In_skipn (n : nat) (l : list A) (a : A) :
  In a (skipn n l) -> In a l.
Proof.
  intros H. rewrite <- (firstn_skipn n l). apply in_or_app. now right.
Qed.

Lemma StronglySorted_filter (f : A -> bool) (l : list A) :
  StronglySorted R l -> StronglySorted R (filter f l).
Proof.
  induction 1 as [|a l Hs IH Hall]; simpl; [constructor|].
  destruct (f a); [|exact IH]. constructor; [exact IH|].
  rewrite Forall_forall in *. intros x Hx. apply Hall.
  now apply filter_In in Hx.
Qed.

Lemma StronglySorted_skipn (n : nat) (l : list A) :
  StronglySorted R l -> StronglySorted R (skipn n l).
Proof.
  revert l. induction n as [|n IH]; intros l Hs; [exact Hs|].
  destruct l as [|a l]; [constructor|]. simpl. apply IH.
  now apply StronglySorted_inv in Hs.
Qed.

Lemma StronglySorted_firstn (n : nat) (l : list A) :
  StronglySorted R l -> StronglySorted R (firstn n l).
Proof.
  revert n. induction l as [|a l IH]; intros n Hs.
  - rewrite firstn_nil. constructor.
  - destruct n as [|n]; [constructor|]. simpl.
    apply StronglySorted_inv in Hs as [Hs Hall].
    constructor; [now apply IH|].
    rewrite Forall_forall in *. intros x Hx. apply Hall.
    now apply In_firstn in Hx.
Qed.

End SortedSublists.

Lemma CommonListMixin_sorted (db : DB) (now : Z) :
  StronglySorted newer_first (CommonListMixin_get_queryset db now).
Proof. apply order_by_sorted. Qed.

(** ** The category page *)

(** A stored category with the flag set is found by its slug. *)
Lemma CategoryPostsListView_category (db : DB) (c : Category.t) :
  Constraints db -> In c (categories db) ->
  Category.is_published c = true ->
  ORM.get_object_or_404 (categories db)
    [ORM.Category_slug (Category.slug c); ORM.Category_is_published true]
  = Return c.
Proof.
  intros C Hc Hpub.
  rewrite (get_object_or_404_unique _ _ Category.slug _ _ c
             (slug_unique C) Hc).
  - rewrite !all_of_cons, all_of_nil.
    unfold ORM.Category_slug, ORM.Category_is_published.
    now rewrite String.eqb_refl, Hpub.
  - intros y Hy. rewrite all_of_cons in Hy.
    apply andb_true_iff in Hy as [Hy _]. now apply String.eqb_eq in Hy.
Qed.

(** The page of a stored, published category lists exactly the publicly
    visible posts whose category key is the category's, newest first. *)
Theorem category_page_lists_visible_posts_of_category :
  forall (db : DB) (now : Z) (c : Category.t),
    Constraints db -> In c (categories db) ->
    Category.is_published c = true ->
    exists l,
      CategoryPostsListView_get_queryset db now (Category.slug c) = Return l
      /\ (forall p, In p (map ORM.row l) <->
                    In p (posts db)
                    /\ isPubliclyVisible db now p = true
                    /\ Post.category p = Some (Category.pk c))
      /\ StronglySorted newer_first l.
Proof.
  intros db now c C Hc Hpub. eexists.
  unfold CategoryPostsListView_get_queryset.
  rewrite (CategoryPostsListView_category db c C Hc Hpub). simpl bind.
  split; [reflexivity|]. split.
  - intros p. rewrite in_map_iff. split.
    + intros (a & <- & Ha). apply filter_In in Ha as [Ha Hcat].
      assert (Hp : In (ORM.row a)
                     (map ORM.row (CommonListMixin_get_queryset db now)))
        by now apply in_map.
      apply CommonListMixin_In in Hp as [Hp Hv].
      repeat split; trivial. unfold ORM.category in Hcat.
      destruct (Post.category (ORM.row a)); [|discriminate].
      apply Nat.eqb_eq in Hcat. now subst.
    + intros (Hp & Hv & Hcat).
      assert (Hin : In p (map ORM.row (CommonListMixin_get_queryset db now)))
        by now apply CommonListMixin_In.
      apply in_map_iff in Hin as (a & <- & Ha). exists a.
      split; [reflexivity|]. apply filter_In. split; [exact Ha|].
      unfold ORM.category. rewrite Hcat. apply Nat.eqb_refl.
  - apply StronglySorted_filter, CommonListMixin_sorted.
Qed.

(** The category page, in the example store: the page of [travel] lists
    Bob's and Alice's visible posts. *)
Lemma category_page_witness :
  exists l,
    CategoryPostsListView_get_queryset Example.db Example.now "travel"
    = Return l
    /\ In Example.post_bob (map ORM.row l)
    /\ ~ In Example.post_unpublished (map ORM.row l).
Proof.
  destruct (category_page_lists_visible_posts_of_category
              Example.db Example.now Example.travel Example_constraints
              ltac:(simpl; tauto) eq_refl) as (l & Hl & Hiff & _).
  exists l. split; [exact Hl|]. split.
  - apply Hiff. repeat split; simpl; tauto.
  - intros H. apply Hiff in H as (_ & H & _). discriminate.
Defined.

(** A slug that no stored category has gives [Http404], on every page
    number and for every viewer. *)
Theorem category_page_unknown_slug_not_found :
  forall (db : DB) (now : Z) (category_slug : string),
    (forall c, In c (categories db) -> Category.slug c <> category_slug) ->
    CategoryPostsListView_get_queryset db now category_slug = Http404
    /\ forall viewer n,
        list_page db now viewer (category_posts category_slug) n = Http404.
Proof.
  intros db now s Habs.
  assert (H : CategoryPostsListView_get_queryset db now s = Http404).
  { unfold CategoryPostsListView_get_queryset.
    rewrite get_object_or_404_none; [reflexivity|].
    intros c Hc. rewrite all_of_cons. unfold ORM.Category_slug.
    apply Habs in Hc. apply String.eqb_neq in Hc. now rewrite Hc. }
  split; [exact H|]. intros viewer n. unfold list_page, ListView_get.
  now rewrite H.
Qed.

(** An unknown slug, in the example store. *)
Lemma category_page_unknown_slug_witness :
  list_page Example.db Example.now AnonymousUser (category_posts "food") 1
  = Http404.
Proof.
  apply (category_page_unknown_slug_not_found Example.db Example.now "food").
  simpl. intros c [<-|[<-|[]]]; discriminate.
Defined.

(** ** The profile page *)

(** A username that no stored user has gives [Http404], whoever asks. *)
Theorem profile_page_unknown_user_not_found :
  forall (db : DB) (now : Z) (viewer : RequestUser) (username : string),
    (forall u, In u (users db) -> User.username u <> username) ->
    ProfileListView_get_queryset db now viewer username = Http404
    /\ forall n, list_page db now viewer (profile username) n = Http404.
Proof.
  intros db now viewer s Habs.
  assert (H : ProfileListView_get_queryset db now viewer s = Http404).
  { unfold ProfileListView_get_queryset.
    rewrite get_object_or_404_none; [reflexivity|].
    intros u Hu. rewrite all_of_cons. unfold ORM.User_username.
    apply Habs in Hu. apply String.eqb_neq in Hu. now rewrite Hu. }
  split; [exact H|]. intros n. unfold list_page, ListView_get.
  now rewrite H.
Qed.

(** An unknown username, in the example store. *)
Lemma profile_page_unknown_user_witness :
  list_page Example.db Example.now (LoggedIn Example.alice)
    (profile "erin") 1 = Http404.
Proof.
  apply (profile_page_unknown_user_not_found Example.db Example.now
           (LoggedIn Example.alice) "erin").
  simpl. intros u [<-|[<-|[<-|[]]]]; discriminate.
Defined.

(** A post that is not publicly visible is on a profile page only when the
    viewer is its author and the page is the author's own. *)
Theorem profile_page_hidden_post_only_for_author :
  forall (db : DB) (now : Z) (viewer : RequestUser) (username : string)
         (l : list ORM.Annotated) (p : Post.t),
    Constraints db ->
    ProfileListView_get_queryset db now viewer username = Return l ->
    In p (map ORM.row l) ->
    isPubliclyVisible db now p = false ->
    same_user (Post.author p) viewer = true
    /\ exists U, In U (users db)
                 /\ User.username U = username
                 /\ Post.author p = User.pk U.
Proof.
  intros db now viewer username l p C Hl Hp Hhidden.
  unfold ProfileListView_get_queryset, bind in Hl.
  destruct (ORM.get_object_or_404 (users db) _) as [user| |] eqn:Euser;
    try discriminate.
  apply get_object_or_404_Return in Euser as [Huser Hname].
  rewrite all_of_cons in Hname. apply andb_true_iff in Hname as [Hname _].
  apply String.eqb_eq in Hname.
  destruct (same_user (User.pk user) viewer) eqn:Esame.
  - injection Hl as <-.
    apply (Permutation_in _ (ordered_annotated_rows db _)) in Hp.
    apply filter_In in Hp as [Hp Hq].
    rewrite all_of_cons, all_of_nil, andb_true_r in Hq.
    rewrite (author__username_author db user p C Huser Hp) in Hq.
    apply Nat.eqb_eq in Hq. split.
    + now rewrite Hq.
    + exists user. auto.
  - injection Hl as <-. apply CommonListMixin_In in Hp as [_ Hp]. congruence.
Qed.

(** The hidden posts of the example store: Alice's post in the unpublished
    category is on her own page, and the viewer is then Alice. *)
Lemma profile_page_hidden_post_witness :
  same_user (Post.author Example.post_in_drafts) (LoggedIn Example.alice)
  = true
  /\ exists U, In U (users Example.db)
               /\ User.username U = "alice"%string
               /\ Post.author Example.post_in_drafts = User.pk U.
Proof.
  eapply (profile_page_hidden_post_only_for_author Example.db Example.now
            (LoggedIn Example.alice) "alice" _ Example.post_in_drafts
            Example_constraints).
  - reflexivity.
  - vm_compute. tauto.
  - reflexivity.
Defined.

(** ** Pages of the list views *)

(** Every page of every list view is in descending order of publication
    timestamp, has at most [MAX_QUANTITY_POST] rows, and holds only stored
    posts. *)
Theorem list_pages_sorted_and_bounded :
  forall (db : DB) (now : Z) (viewer : RequestUser) (url : ListUrl)
         (n : nat) (page : list ORM.Annotated),
    list_page db now viewer url n = Return page ->
    StronglySorted newer_first page
    /\ List.length page <= MAX_QUANTITY_POST
    /\ forall a, In a page -> In (ORM.row a) (posts db).
Proof.
  intros db now viewer url n page Hpage.
  unfold list_page, ListView_get in Hpage.
  assert (Hqs : exists qs,
             Paginator.page CommonListMixin_paginate_by qs n = Return page
             /\ StronglySorted newer_first qs
             /\ forall a, In a qs -> In (ORM.row a) (posts db)).
  { assert (Hcommon : forall a, In a (CommonListMixin_get_queryset db now) ->
                                 In (ORM.row a) (posts db)).
    { intros a Ha. apply (in_map ORM.row) in Ha.
      now apply CommonListMixin_In in Ha. }
    destruct url as [|category_slug|username]; simpl bind in Hpage.
    - eexists. split; [exact Hpage|]. split;
        [apply CommonListMixin_sorted|exact Hcommon].
    - unfold CategoryPostsListView_get_queryset, bind in Hpage.
      destruct (ORM.get_object_or_404 _ _) as [category| |];
        try discriminate.
      eexists. split; [exact Hpage|]. split.
      + apply StronglySorted_filter, CommonListMixin_sorted.
      + intros x Hx. apply filter_In in Hx as [Hx _]. now apply Hcommon.
    - unfold ProfileListView_get_queryset, bind in Hpage.
      destruct (ORM.get_object_or_404 _ _) as [user| |]; try discriminate.
      destruct (same_user (User.pk user) viewer).
      + eexists. split; [exact Hpage|]. split; [apply order_by_sorted|].
        intros a Ha. apply (in_map ORM.row) in Ha.
        apply (Permutation_in _ (ordered_annotated_rows db _)) in Ha.
        now apply filter_In in Ha.
      + eexists. split; [exact Hpage|]. split;
          [apply CommonListMixin_sorted|exact Hcommon]. }
  destruct Hqs as (qs & Hp & Hsorted & Hstored).
  split; [|split].
  - apply page_Return in Hp as [-> _].
    now apply StronglySorted_firstn, StronglySorted_skipn.
  - now apply page_Return in Hp.
  - intros a Ha. apply Hstored. eapply page_incl; eauto.
Qed.

(** The first page of the index, in the example store. *)
Lemma list_pages_sorted_witness :
  StronglySorted newer_first
    [ORM.mkAnnotated Example.post_bob 0; ORM.mkAnnotated Example.post_alice 2]
  /\ List.length
       [ORM.mkAnnotated Example.post_bob 0;
        ORM.mkAnnotated Example.post_alice 2] <= MAX_QUANTITY_POST
  /\ forall a,
       In a [ORM.mkAnnotated Example.post_bob 0;
             ORM.mkAnnotated Example.post_alice 2] ->
       In (ORM.row a) (posts Example.db).
Proof.
  apply (list_pages_sorted_and_bounded Example.db Example.now AnonymousUser
           index 1).
  reflexivity.
Defined.

(** Page numbers start at 1: page 0 of a list view is never served.  The
    index always has its page 1, and when no post is publicly visible that
    page is empty and there is no page 2. *)
Theorem list_page_numbering :
  forall (db : DB) (now : Z) (viewer : RequestUser),
    (forall url page, list_page db now viewer url 0 <> Return page)
    /\ (exists page, list_page db now viewer index 1 = Return page)
    /\ (filter (isPubliclyVisible db now) (posts db) = [] ->
        list_page db now viewer index 1 = Return []
        /\ list_page db now viewer index 2 = Http404).
Proof.
  intros db now viewer. split; [|split].
  - intros url page. unfold list_page, ListView_get, bind.
    destruct (match url with
              | index => _ | category_posts _ => _ | profile _ => _
              end); discriminate.
  - eexists. unfold list_page, ListView_get, bind.
    apply page_in_range. split; [lia|].
    unfold Paginator.num_pages, CommonListMixin_paginate_by,
      MAX_QUANTITY_POST.
    apply Nat.div_le_lower_bound; lia.
  - intros Hnone.
    unfold list_page, ListView_get, bind, IndexListView_get_queryset,
      CommonListMixin_get_queryset.
    rewrite Hnone. split; reflexivity.
Qed.

(** The index of an empty store. *)
Lemma list_page_numbering_witness :
  list_page ExampleForms.empty_db 0 AnonymousUser index 1 = Return []
  /\ list_page ExampleForms.empty_db 0 AnonymousUser index 2 = Http404.
Proof.
  apply (list_page_numbering ExampleForms.empty_db 0 AnonymousUser).
  reflexivity.
Defined.

(** ** The detail view for viewers who are not the author *)

(** An authenticated viewer who wrote no post with the requested key gets
    from the detail view what an anonymous viewer gets: the two branches of
    [PostDetailView.get_object] agree. *)
Theorem post_detail_non_author_as_anonymous :
  forall (db : DB) (now : Z) (u : User.t) (id : nat),
    (forall p, In p (posts db) -> Post.pk p = id ->
               Post.author p <> User.pk u) ->
    PostDetailView_get_object db now (LoggedIn u) id
    = PostDetailView_get_object db now AnonymousUser id.
Proof.
  intros db now u id Hother.
  unfold PostDetailView_get_object, get_post_data, ORM.get_object_or_404.
  simpl is_authenticated. cbv iota.
  rewrite !filter_filter.
  erewrite (filter_ext_in _
              (fun x =>
                 ORM.all_of [ORM.pub_date__lte now; ORM.is_published true;
                             ORM.category__is_published db true] x
                 && ORM.all_of [ORM.pk id] x));
    [reflexivity|].
  intros p Hp. rewrite !all_of_cons, !all_of_nil, !andb_true_r.
  unfold ORM.Q_or at 1. rewrite detail_Q_public.
  rewrite <- (get_post_data_filter db now p).
  rewrite !all_of_cons, !all_of_nil, !andb_true_r.
  destruct (ORM.pk id p) eqn:Epk; [|now rewrite !andb_false_r].
  apply pk_lookup in Epk. specialize (Hother p Hp Epk).
  unfold ORM.author. simpl. apply Nat.eqb_neq in Hother. now rewrite Hother.
Qed.

(** Carol and an anonymous viewer, on Alice's hidden post. *)
Lemma post_detail_non_author_witness :
  PostDetailView_get_object Example.db Example.now
    (LoggedIn Example.carol) 4
  = PostDetailView_get_object Example.db Example.now AnonymousUser 4.
Proof.
  apply (post_detail_non_author_as_anonymous Example.db Example.now
           Example.carol 4).
  simpl. intros p Hp Hpk.
  repeat (destruct Hp as [<-|Hp]; [simpl in *; lia|]). contradiction.
Defined.

(** ** Edit and delete: the author, and keys that are not stored *)

Section Mutations.

Variables PostUpdateView_super PostDeleteView_super
  : HttpRequest -> nat -> View.
Variables CommentUpdateView_super CommentDeleteView_super
  : HttpRequest -> nat -> nat -> View.

(** A request by the author of a stored post or comment passes both checks
    of [dispatch] and is handled by the generic view, with its response and
    its writes; for a comment this holds under any [post_id] in the URL. *)
Theorem author_request_reaches_generic_view :
  forall (db : DB) (request : HttpRequest) (A : User.t),
    req_user request = LoggedIn A ->
    (forall E : Post.t,
        NoDup (map Post.pk (posts db)) -> In E (posts db) ->
        Post.author E = User.pk A ->
        PostUpdateView_dispatch PostUpdateView_super request (Post.pk E) db
        = PostUpdateView_super request (Post.pk E) db
        /\ PostDeleteView_dispatch PostDeleteView_super request
             (Post.pk E) db
           = PostDeleteView_super request (Post.pk E) db)
    /\ (forall (E : Comment.t) (post_id : nat),
           NoDup (map Comment.pk (comments db)) -> In E (comments db) ->
           Comment.author E = User.pk A ->
           CommentUpdateView_dispatch CommentUpdateView_super request
             post_id (Comment.pk E) db
           = CommentUpdateView_super request post_id (Comment.pk E) db
           /\ CommentDeleteView_dispatch CommentDeleteView_super request
                post_id (Comment.pk E) db
              = CommentDeleteView_super request post_id (Comment.pk E) db).
Proof.
  intros db request A HA. split.
  - intros E Hnd Hin Hauthor.
    unfold PostUpdateView_dispatch, PostDeleteView_dispatch,
      PostVerifyMixin_dispatch, or_raise, LoginRequiredMixin_dispatch.
    rewrite (get_post_by_pk db E Hnd Hin), HA. simpl.
    now rewrite Hauthor, Nat.eqb_refl.
  - intros E post_id Hnd Hin Hauthor.
    unfold CommentUpdateView_dispatch, CommentDeleteView_dispatch,
      CommentMixin_dispatch, or_raise, LoginRequiredMixin_dispatch.
    rewrite (get_comment_by_pk db E Hnd Hin), HA. simpl.
    now rewrite Hauthor, Nat.eqb_refl.
Qed.

(** A request to edit or delete a post or a comment whose key is not stored
    is answered with not-found and writes nothing, for every requester, the
    anonymous one included: the lookup comes before both checks. *)
Theorem mutation_of_absent_key_not_found :
  forall (db : DB) (request : HttpRequest),
    (forall post_id,
        (forall p, In p (posts db) -> Post.pk p <> post_id) ->
        PostUpdateView_dispatch PostUpdateView_super request post_id db
        = (HttpResponseNotFound, db)
        /\ PostDeleteView_dispatch PostDeleteView_super request post_id db
           = (HttpResponseNotFound, db))
    /\ (forall post_id comment_id,
           (forall c, In c (comments db) -> Comment.pk c <> comment_id) ->
           CommentUpdateView_dispatch CommentUpdateView_super request
             post_id comment_id db
           = (HttpResponseNotFound, db)
           /\ CommentDeleteView_dispatch CommentDeleteView_super request
                post_id comment_id db
              = (HttpResponseNotFound, db)).
Proof.
  intros db request. split.
  - intros post_id Habs.
    unfold PostUpdateView_dispatch, PostDeleteView_dispatch,
      PostVerifyMixin_dispatch, or_raise.
    rewrite get_object_or_404_none; [now split|].
    intros p Hp. rewrite all_of_cons. unfold ORM.pk.
    apply Habs in Hp. apply Nat.eqb_neq in Hp. now rewrite Hp.
  - intros post_id comment_id Habs.
    unfold CommentUpdateView_dispatch, CommentDeleteView_dispatch,
      CommentMixin_dispatch, CommentMixin_get_object, or_raise.
    rewrite get_object_or_404_none; [now split|].
    intros c Hc. rewrite all_of_cons. unfold ORM.Comment_pk.
    apply Habs in Hc. apply Nat.eqb_neq in Hc. now rewrite Hc.
Qed.

End Mutations.

(** Bob edits his own comment through the URL of another post and reaches
    the generic view. *)
Lemma author_request_witness :
  CommentUpdateView_dispatch Example.show_comment_form
    (mkRequest (LoggedIn Example.bob) GET []) 2 1 Example.db
  = Example.show_comment_form (mkRequest (LoggedIn Example.bob) GET [])
      2 1 Example.db.
Proof.
  destruct (author_request_reaches_generic_view
              Example.show_post_form Example.show_post_form
              Example.show_comment_form Example.show_comment_form
              Example.db (mkRequest (LoggedIn Example.bob) GET [])
              Example.bob eq_refl) as [_ Hcomment].
  apply (Hcomment Example.comment_1 2
           (comment_pk_unique Example_constraints));
    [simpl; tauto|reflexivity].
Defined.

(** An anonymous request to delete post 9, which is not stored. *)
Lemma mutation_of_absent_key_witness :
  PostDeleteView_dispatch Example.show_post_form Example.request_anonymous
    9 Example.db
  = (HttpResponseNotFound, Example.db).
Proof.
  destruct (mutation_of_absent_key_not_found
              Example.show_post_form Example.show_post_form
              Example.show_comment_form Example.show_comment_form
              Example.db Example.request_anonymous) as [Hpost _].
  apply Hpost. simpl. intros p Hp.
  repeat (destruct Hp as [<-|Hp]; [simpl; lia|]). contradiction.
Defined.

(** ** Creating a comment: what is written *)

(** What [CreateView.post] does for an authenticated request: nothing is
    written, or one row is appended to the comment table for a valid form
    and a stored post. *)
Lemma CommentCreateView_post_cases
      (CommentForm_clean : QueryDict -> option string) (db : DB) (now : Z)
      (request : HttpRequest) (post_id : nat) (u : User.t) :
  req_user request = LoggedIn u ->
  snd (CommentCreateView_post CommentForm_clean now request post_id db) = db
  \/ exists post text,
      CommentForm_clean (req_POST request) = Some text
      /\ In post (posts db) /\ Post.pk post = post_id
      /\ CommentCreateView_post CommentForm_clean now request post_id db
         = (HttpResponseRedirect (blog_post_detail post_id),
            mkDB (users db) (categories db) (posts db)
              (comments db
               ++ [Comment.mk (next_pk (map Comment.pk (comments db)))
                     (Post.pk post) (User.pk u) text now])).
Proof.
  intros Eu. unfold CommentCreateView_post.
  destruct (CommentForm_clean (req_POST request)) as [text|] eqn:Ef;
    [|now left].
  unfold CommentCreateView_form_valid, or_raise. rewrite Eu.
  destruct (ORM.get_object_or_404 (posts db) [ORM.pk post_id])
    as [post| |] eqn:Ep; try (now left).
  right. exists post, text.
  apply get_object_or_404_Return in Ep as [Hin Hpk].
  rewrite all_of_cons in Hpk. apply andb_true_iff in Hpk as [Hpk _].
  apply pk_lookup in Hpk. repeat split; trivial.
Qed.

(** The outcomes of [CommentCreateView.dispatch]: nothing is written, or
    one row is appended to the comment table, with a new key, for an
    authenticated request to the URL of a stored post whose form is valid:
    a [POST] with its data, or a [PUT], whose form sees no data. *)
Lemma CommentCreateView_dispatch_cases
      (CommentForm_clean : QueryDict -> option string) (db : DB) (now : Z)
      (request : HttpRequest) (post_id : nat) :
  snd (CommentCreateView_dispatch CommentForm_clean now request post_id db)
  = db
  \/ exists u post text,
      req_user request = LoggedIn u
      /\ (req_method request = POST
          /\ CommentForm_clean (req_POST request) = Some text
          \/ req_method request = PUT
             /\ CommentForm_clean [] = Some text)
      /\ In post (posts db) /\ Post.pk post = post_id
      /\ CommentCreateView_dispatch CommentForm_clean now request post_id db
         = (HttpResponseRedirect (blog_post_detail post_id),
            mkDB (users db) (categories db) (posts db)
              (comments db
               ++ [Comment.mk (next_pk (map Comment.pk (comments db)))
                     (Post.pk post) (User.pk u) text now])).
Proof.
  unfold CommentCreateView_dispatch, LoginRequiredMixin_dispatch.
  destruct (req_user request) as [|u] eqn:Eu; simpl; [now left|].
  destruct (req_method request) eqn:Em; try (now left).
  - destruct (CommentCreateView_post_cases CommentForm_clean db now request
                post_id u Eu) as [H|(post & text & Hf & Hin & Hpk & H)];
      [now left|].
    right. exists u, post, text. repeat split; trivial. now left.
  - destruct (CommentCreateView_post_cases CommentForm_clean db now
                (without_POST request) post_id u Eu)
      as [H|(post & text & Hf & Hin & Hpk & H)]; [now left|].
    right. exists u, post, text. repeat split; trivial. now right.
Qed.

(** Creating a comment never touches the user, category and post tables,
    keeps every stored comment, and appends at most one row.  A row is
    appended only for a [POST] whose form is valid, or for a [PUT] when the
    form accepts an empty submission; its parent is the post of the URL,
    its author is the requester, and the response is then the redirect to
    that post's detail page.  No other method writes. *)
Theorem comment_create_writes_one_comment_at_most :
  forall (CommentForm_clean : QueryDict -> option string) (db : DB)
         (now : Z) (request : HttpRequest) (post_id : nat),
    let result :=
      CommentCreateView_dispatch CommentForm_clean now request post_id db in
    users (snd result) = users db
    /\ categories (snd result) = categories db
    /\ posts (snd result) = posts db
    /\ (comments (snd result) = comments db
        \/ exists c,
            comments (snd result) = comments db ++ [c]
            /\ Comment.post c = post_id
            /\ same_user (Comment.author c) (req_user request) = true
            /\ (req_method request = POST
                /\ CommentForm_clean (req_POST request) <> None
                \/ req_method request = PUT
                   /\ CommentForm_clean [] <> None)
            /\ fst result
               = HttpResponseRedirect (blog_post_detail post_id)).
Proof.
  intros clean db now request post_id result. subst result.
  destruct (CommentCreateView_dispatch_cases clean db now request post_id)
    as [H|(u & post & text & Hu & Hm & _ & Hpk & H)]; rewrite H.
  - repeat split; trivial. now left.
  - simpl. repeat split; trivial. right. eexists. split; [reflexivity|].
    simpl. rewrite Hu. simpl. rewrite Nat.eqb_refl.
    repeat split; trivial.
    destruct Hm as [[Hm Hf]|[Hm Hf]]; [left|right];
      (split; [exact Hm|congruence]).
Qed.

(** A [PUT] by Carol to the comment URL of post 1: a form that accepts the
    empty submission writes a comment, the example form does not. *)
Lemma comment_create_put_witness :
  (exists c,
      comments
        (snd (CommentCreateView_dispatch ExampleForms.CommentForm_any 300
                ExampleForms.request_put 1 Example.db))
      = comments Example.db ++ [c])
  /\ snd (CommentCreateView_dispatch Example.CommentForm_clean 300
            ExampleForms.request_put 1 Example.db)
     = Example.db.
Proof.
  split; [|reflexivity].
  destruct (comment_create_writes_one_comment_at_most
              ExampleForms.CommentForm_any Example.db 300
              ExampleForms.request_put 1) as (_ & _ & _ & [H|H]).
  - exfalso. apply (f_equal (@List.length Comment.t)) in H.
    vm_compute in H. discriminate.
  - destruct H as (c & H & _). exists c. exact H.
Defined.

(** The requests that write nothing: an anonymous one is sent to the login
    page, a [GET] and an invalid form show the form, and a valid form for a
    key no post has is answered with not-found. *)
Theorem comment_create_refusals_write_nothing :
  forall (CommentForm_clean : QueryDict -> option string) (db : DB)
         (now : Z) (request : HttpRequest) (post_id : nat),
    (req_user request = AnonymousUser ->
     CommentCreateView_dispatch CommentForm_clean now request post_id db
     = (HttpResponseRedirect login_url, db))
    /\ (is_authenticated (req_user request) = true ->
        req_method request = GET ->
        CommentCreateView_dispatch CommentForm_clean now request post_id db
        = (TemplateResponse "blog/comment.html", db))
    /\ (is_authenticated (req_user request) = true ->
        req_method request = POST ->
        CommentForm_clean (req_POST request) = None ->
        CommentCreateView_dispatch CommentForm_clean now request post_id db
        = (TemplateResponse "blog/comment.html", db))
    /\ (is_authenticated (req_user request) = true ->
        req_method request = POST ->
        CommentForm_clean (req_POST request) <> None ->
        (forall p, In p (posts db) -> Post.pk p <> post_id) ->
        CommentCreateView_dispatch CommentForm_clean now request post_id db
        = (HttpResponseNotFound, db)).
Proof.
  intros clean db now request post_id.
  unfold CommentCreateView_dispatch, LoginRequiredMixin_dispatch,
    CommentCreateView_post.
  repeat split.
  - intros ->. reflexivity.
  - intros -> ->. reflexivity.
  - intros -> -> ->. reflexivity.
  - intros Hauth -> Hvalid Habs. rewrite Hauth. simpl.
    destruct (clean (req_POST request)) as [text|]; [|now elim Hvalid].
    unfold CommentCreateView_form_valid, or_raise.
    destruct (req_user request); [discriminate|].
    rewrite get_object_or_404_none; [reflexivity|].
    intros p Hp. rewrite all_of_cons. unfold ORM.pk.
    apply Habs in Hp. apply Nat.eqb_neq in Hp. now rewrite Hp.
Qed.

(** An anonymous comment and a comment on post 9, which is not stored. *)
Lemma comment_create_refusals_witness :
  CommentCreateView_dispatch Example.CommentForm_clean 300
    (mkRequest AnonymousUser POST [("text"%string, "Hello"%string)]) 1
    Example.db
  = (HttpResponseRedirect login_url, Example.db)
  /\ CommentCreateView_dispatch Example.CommentForm_clean 300
       Example.request_comment 9 Example.db
     = (HttpResponseNotFound, Example.db).
Proof.
  split.
  - apply (comment_create_refusals_write_nothing Example.CommentForm_clean
             Example.db 300
             (mkRequest AnonymousUser POST
                [("text"%string, "Hello"%string)]) 1).
    reflexivity.
  - apply (comment_create_refusals_write_nothing Example.CommentForm_clean
             Example.db 300 Example.request_comment 9);
      try reflexivity; [discriminate|].
    simpl. intros p Hp.
    repeat (destruct Hp as [<-|Hp]; [simpl; lia|]). contradiction.
Defined.

(** ** Creating a comment: constraints, counts and lookups afterwards *)

Lemma NoDup_snoc A (l : list A) (x : A) :
  NoDup l -> ~ In x l -> NoDup (l ++ [x]).
Proof.
  intros Hnd Hx. apply (Permutation_NoDup (Permutation_cons_append l x)).
  now constructor.
Qed.

(** The result of a valid submission by an authenticated user for a stored
    post. *)
Lemma CommentCreateView_dispatch_valid
      (CommentForm_clean : QueryDict -> option string) (db : DB) (now : Z)
      (request : HttpRequest) (V : User.t) (P : Post.t) (text : string) :
  NoDup (map Post.pk (posts db)) -> In P (posts db) ->
  req_user request = LoggedIn V -> req_method request = POST ->
  CommentForm_clean (req_POST request) = Some text ->
  CommentCreateView_dispatch CommentForm_clean now request (Post.pk P) db
  = (HttpResponseRedirect (blog_post_detail (Post.pk P)),
     mkDB (users db) (categories db) (posts db)
       (comments db
        ++ [Comment.mk (next_pk (map Comment.pk (comments db)))
              (Post.pk P) (User.pk V) text now])).
Proof.
  intros Hnd Hin HV Hm Hvalid.
  unfold CommentCreateView_dispatch, LoginRequiredMixin_dispatch.
  rewrite HV. simpl. rewrite Hm.
  unfold CommentCreateView_post. rewrite Hvalid.
  unfold CommentCreateView_form_valid, or_raise. rewrite HV.
  now rewrite (get_post_by_pk db P Hnd Hin).
Qed.

Lemma comment_create_keeps_constraints_aux
      (CommentForm_clean : QueryDict -> option string) (db : DB) (now : Z)
      (request : HttpRequest) (post_id : nat) :
  Constraints db ->
  Constraints
    (snd (CommentCreateView_dispatch CommentForm_clean now request
            post_id db)).
Proof.
  intros C.
  destruct (CommentCreateView_dispatch_cases CommentForm_clean db now
              request post_id)
    as [H|(u & post & text & _ & _ & _ & _ & H)]; rewrite H;
    [exact C|].
  destruct C as [C1 C2 C3 C4 C5 C6 C7]. constructor; simpl; trivial.
  rewrite map_app. simpl. apply NoDup_snoc; [exact C6|apply next_pk_fresh].
Qed.

(** Creating a comment keeps the constraints of the store, whatever the
    request. *)
Theorem comment_create_keeps_constraints :
  forall (CommentForm_clean : QueryDict -> option string) (db : DB)
         (now : Z) (request : HttpRequest) (post_id : nat),
    Constraints db ->
    Constraints
      (snd (CommentCreateView_dispatch CommentForm_clean now request
              post_id db)).
Proof.
  intros clean db now request post_id.
  apply comment_create_keeps_constraints_aux.
Qed.

(** Two comments in a row on the example store leave its keys distinct. *)
Lemma comment_create_keeps_constraints_witness :
  Constraints
    (snd (CommentCreateView_dispatch Example.CommentForm_clean 301
            Example.request_comment 1
            (snd (CommentCreateView_dispatch Example.CommentForm_clean 300
                    Example.request_comment 5 Example.db)))).
Proof.
  apply (comment_create_keeps_constraints Example.CommentForm_clean).
  apply (comment_create_keeps_constraints Example.CommentForm_clean).
  exact Example_constraints.
Defined.






(** The comment a valid submission appends is the one the edit and delete
    views find under that comment's own key, and every comment stored
    before is still found under its own. *)
Theorem comment_create_then_lookup :
  forall (CommentForm_clean : QueryDict -> option string) (db : DB)
         (now : Z) (request : HttpRequest) (V : User.t) (P : Post.t)
         (text : string),
    Constraints db -> In P (posts db) ->
    req_user request = LoggedIn V -> req_method request = POST ->
    CommentForm_clean (req_POST request) = Some text ->
    let db' :=
      snd (CommentCreateView_dispatch CommentForm_clean now request
             (Post.pk P) db) in
    exists c,
      comments db' = comments db ++ [c]
      /\ Comment.post c = Post.pk P
      /\ Comment.author c = User.pk V
      /\ Comment.text c = text
      /\ CommentMixin_get_object db' (Comment.pk c) = Return c
      /\ (forall E, In E (comments db) ->
                    CommentMixin_get_object db' (Comment.pk E) = Return E).
Proof.
  intros clean db now request V P text C Hin HV Hm Hvalid db'.
  assert (C' := comment_create_keeps_constraints_aux clean db now request
                  (Post.pk P) C).
  fold db' in C'. subst db'.
  rewrite (CommentCreateView_dispatch_valid clean db now request V P text
             (post_pk_unique C) Hin HV Hm Hvalid) in *.
  simpl snd in *. eexists. split; [reflexivity|]. simpl.
  repeat split.
  - apply (get_comment_by_pk _ (Comment.mk _ _ _ _ _)
             (comment_pk_unique C')).
    simpl. apply in_or_app. right. now left.
  - intros E HE. apply (get_comment_by_pk _ E (comment_pk_unique C')).
    simpl. apply in_or_app. now left.
Qed.

(** Carol's comment on Bob's unpublished post is found under its key, and
    comment 1 is still found. *)
Lemma comment_create_then_lookup_witness :
  exists c,
    comments
      (snd (CommentCreateView_dispatch Example.CommentForm_clean 300
              Example.request_comment 5 Example.db))
    = comments Example.db ++ [c]
    /\ CommentMixin_get_object
         (snd (CommentCreateView_dispatch Example.CommentForm_clean 300
                 Example.request_comment 5 Example.db)) (Comment.pk c)
       = Return c
    /\ CommentMixin_get_object
         (snd (CommentCreateView_dispatch Example.CommentForm_clean 300
                 Example.request_comment 5 Example.db)) 1
       = Return Example.comment_1.
Proof.
  destruct (comment_create_then_lookup Example.CommentForm_clean
              Example.db 300 Example.request_comment Example.carol
              Example.post_unpublished "Hello" Example_constraints
              ltac:(simpl; tauto) eq_refl eq_refl eq_refl)
    as (c & Hc & _ & _ & _ & Hnew & Hold).
  exists c. split; [exact Hc|]. split; [exact Hnew|].
  apply (Hold Example.comment_1). simpl. tauto.
Defined.

(** ** Visibility as time passes *)

Lemma isPubliclyVisible_later (db : DB) (now later : Z) (p : Post.t) :
  (now <= later)%Z -> isPubliclyVisible db now p = true ->
  isPubliclyVisible db later p = true.
Proof.
  intros Hle H. apply isPubliclyVisible_spec in H as (H1 & H2 & H3).
  apply isPubliclyVisible_spec. repeat split; trivial. lia.
Qed.

Lemma PostDetailView_get_object_Return (db : DB) (now : Z) (V : RequestUser)
      (id : nat) (p : Post.t) :
  PostDetailView_get_object db now V id = Return p ->
  In p (posts db) /\ Post.pk p = id.
Proof.
  unfold PostDetailView_get_object, get_post_data.
  destruct (is_authenticated V); intros H;
    apply get_object_or_404_Return in H as [Hin Hq];
    apply filter_In in Hin as [Hin Hf]; split; trivial.
  - rewrite !all_of_cons in Hf. apply andb_true_iff in Hf as [_ Hf].
    apply andb_true_iff in Hf as [Hf _]. now apply pk_lookup.
  - rewrite all_of_cons in Hq. apply andb_true_iff in Hq as [Hq _].
    now apply pk_lookup.
Qed.

(** With the store unchanged, what is public stays public: a post listed
    on the index at one time is listed at every later time, and a post the
    detail view returns to a viewer is returned to that viewer at every
    later time. *)
Theorem visible_posts_stay_visible :
  forall (db : DB) (now later : Z),
    NoDup (map Post.pk (posts db)) -> (now <= later)%Z ->
    (forall p, In p (map ORM.row (IndexListView_get_queryset db now)) ->
               In p (map ORM.row (IndexListView_get_queryset db later)))
    /\ (forall V id p,
           PostDetailView_get_object db now V id = Return p ->
           PostDetailView_get_object db later V id = Return p).
Proof.
  intros db now later Hnd Hle. split.
  - intros p Hp. apply CommonListMixin_In in Hp as [Hp Hv].
    apply CommonListMixin_In. split; [exact Hp|].
    now apply isPubliclyVisible_later with (now := now).
  - intros V id p H.
    destruct (PostDetailView_get_object_Return db now V id p H)
      as [Hin <-].
    rewrite (PostDetailView_get_object_stored db now V p Hnd Hin) in H.
    rewrite (PostDetailView_get_object_stored db later V p Hnd Hin).
    destruct (same_user (Post.author p) V); [reflexivity|].
    simpl in *. destruct (isPubliclyVisible db now p) eqn:E;
      [|discriminate].
    now rewrite (isPubliclyVisible_later db now later p Hle E).
Qed.

(** Alice's post, visible at 200, is visible at 1000. *)
Lemma visible_posts_stay_visible_witness :
  PostDetailView_get_object Example.db 1000 AnonymousUser 1
  = Return Example.post_alice.
Proof.
  apply (proj2 (visible_posts_stay_visible Example.db Example.now 1000
                  (post_pk_unique Example_constraints)
                  ltac:(vm_compute; discriminate))).
  reflexivity.
Defined.

(** ** [blog/urls.py]: matching and reversing *)

Lemma span_whole (f : Ascii.ascii -> bool) (s a : string) :
  Urls.span f s = (a, EmptyString) -> a = s.
Proof.
  revert a. induction s as [|c s IH]; simpl; intros a H.
  - now injection H as <-.
  - destruct (f c); [|discriminate].
    destruct (Urls.span f s) as [x y]. injection H as <- ->.
    now rewrite (IH x eq_refl).
Qed.

(** A text that matches a converter is not empty, and the converter's
    class stops exactly at its end when a character outside the class
    follows. *)
Lemma fullmatch_span (c : Urls.Converter) (d t : string) (c0 : Ascii.ascii) :
  Urls.fullmatch c d = true -> Urls.char_class c c0 = false ->
  Urls.span (Urls.char_class c) (d ++ String c0 t) = (d, String c0 t).
Proof.
  unfold Urls.fullmatch. intros Hd Hc0.
  destruct (Urls.span (Urls.char_class c) d) as [a b] eqn:E.
  destruct a as [|a0 a]; [discriminate|]. destruct b; [|discriminate].
  clear Hd. apply span_whole in E as E'. subst d. revert E.
  generalize (String a0 a) as s. clear a0 a.
  induction s as [|x s IH]; simpl.
  - intros _. now rewrite Hc0.
  - destruct (Urls.char_class c x); [|discriminate].
    destruct (Urls.span (Urls.char_class c) s) as [u v] eqn:E. intros H.
    injection H as -> ->. now rewrite (IH eq_refl).
Qed.

Lemma fullmatch_nonempty (c : Urls.Converter) (d : string) :
  Urls.fullmatch c d = true ->
  exists a r, d = String a r /\ Urls.char_class c a = true.
Proof.
  unfold Urls.fullmatch. destruct d as [|a r]; simpl; [discriminate|].
  destruct (Urls.char_class c a) eqn:E; [|discriminate]. intros _. eauto.
Qed.

Lemma ascii_eqb_class (f : Ascii.ascii -> bool) (c a : Ascii.ascii) :
  f c = false -> f a = true -> Ascii.eqb c a = false.
Proof.
  intros Hc Ha. destruct (Ascii.eqb c a) eqn:E; [|reflexivity].
  apply Ascii.eqb_eq in E. congruence.
Qed.

(** Rewriting rules for [match_route] and [strip_prefix]. *)
Lemma match_route_nil (s : string) : Urls.match_route [] s = Some ([], s).
Proof. reflexivity. Qed.

Lemma match_route_lit (text : string) (r : list Urls.Part) (s : string) :
  Urls.match_route (Urls.Lit text :: r) s
  = match Urls.strip_prefix text s with
    | Some s' => Urls.match_route r s'
    | None => None
    end.
Proof. reflexivity. Qed.

Lemma match_route_param (c : Urls.Converter) (name : string)
      (r : list Urls.Part) (d t : string) (c0 : Ascii.ascii) :
  Urls.fullmatch c d = true -> Urls.char_class c c0 = false ->
  Urls.match_route (Urls.Param c name :: r) (d ++ String c0 t)
  = match Urls.to_python c d, Urls.match_route r (String c0 t) with
    | Some v, Some (kw, rest) => Some ((name, v) :: kw, rest)
    | _, _ => None
    end.
Proof.
  intros Hd Hc0. simpl Urls.match_route at 1.
  rewrite (fullmatch_span c d t c0 Hd Hc0).
  destruct (fullmatch_nonempty c d Hd) as (a & r' & -> & _). reflexivity.
Qed.

Lemma strip_prefix_cons (c : Ascii.ascii) (lit : string) (d : Ascii.ascii)
      (s : string) :
  Urls.strip_prefix (String c lit) (String d s)
  = if Ascii.eqb c d then Urls.strip_prefix lit s else None.
Proof. reflexivity. Qed.

Lemma strip_prefix_empty (s : string) :
  Urls.strip_prefix EmptyString s = Some s.
Proof. reflexivity. Qed.

(** A literal that starts outside a converter's class is no prefix of a
    text that matches the converter. *)
Lemma strip_prefix_class (cv : Urls.Converter) (c : Ascii.ascii)
      (lit d t : string) :
  Urls.fullmatch cv d = true -> Urls.char_class cv c = false ->
  Urls.strip_prefix (String c lit) (d ++ t) = None.
Proof.
  intros Hd Hc. destruct (fullmatch_nonempty cv d Hd) as (a & r & -> & Ha).
  simpl. now rewrite (ascii_eqb_class _ c a Hc Ha).
Qed.

(** Decimal numerals. *)
Lemma to_little_uint_nonnil (n : nat) (acc : Decimal.uint) :
  acc <> Decimal.Nil -> Nat.to_little_uint n acc <> Decimal.Nil.
Proof.
  revert acc. induction n as [|n IH]; intros acc Hacc; simpl; [exact Hacc|].
  apply IH. destruct acc; discriminate.
Qed.

Lemma string_of_uint_digits (d : Decimal.uint) :
  Urls.span Urls.is_digit (DecimalString.NilEmpty.string_of_uint d)
  = (DecimalString.NilEmpty.string_of_uint d, EmptyString).
Proof.
  induction d; simpl; try reflexivity;
    change (Urls.is_digit _) with true; cbv iota; now rewrite IHd.
Qed.

Lemma str_of_nat_fullmatch (n : nat) :
  Urls.fullmatch Urls.IntConverter (Urls.str_of_nat n) = true.
Proof.
  unfold Urls.fullmatch, Urls.str_of_nat. simpl Urls.char_class.
  rewrite string_of_uint_digits.
  destruct (Nat.to_uint n) eqn:E; try reflexivity.
  exfalso. unfold Nat.to_uint in E. apply DecimalFacts.rev_nil_inv in E.
  revert E. apply to_little_uint_nonnil. discriminate.
Qed.

Lemma int_of_str_of_nat (n : nat) :
  Urls.int_of_str (Urls.str_of_nat n) = Some n.
Proof.
  unfold Urls.int_of_str, Urls.str_of_nat.
  rewrite DecimalString.NilEmpty.usu. simpl.
  now rewrite DecimalNat.Unsigned.of_to.
Qed.

Lemma resolve_in_cons (p : Urls.Pattern) (ps : list Urls.Pattern)
      (s : string) :
  Urls.resolve_in (p :: ps) s
  = match Urls.match_route (Urls.route p) s with
    | Some (kw, EmptyString) =>
        Some (Urls.mkMatch (Urls.view p) (Urls.name p) kw)
    | _ => Urls.resolve_in ps s
    end.
Proof. reflexivity. Qed.

(** Matching one route against a path made of literal text and of texts
    known to match their converters. *)
Ltac route_step :=
  first
    [ rewrite match_route_nil
    | rewrite match_route_lit
    | rewrite strip_prefix_empty
    | rewrite strip_prefix_cons
    | erewrite strip_prefix_class by (eassumption || reflexivity)
    | erewrite match_route_param by (eassumption || reflexivity)
    | match goal with
      | H : Urls.int_of_str _ = Some _ |- _ => rewrite H
      end
    | progress cbn [Urls.to_python option_map Ascii.eqb Bool.eqb
                    String.append] ].

(** Resolving such a path: the patterns are tried in turn. *)
Ltac resolve_path :=
  unfold Urls.resolve, Urls.urlpatterns, Urls.posts_urls, Urls.include;
  cbn [map app Urls.route Urls.view Urls.name];
  repeat (rewrite resolve_in_cons;
          cbn [Urls.route Urls.view Urls.name];
          repeat route_step;
          cbv beta iota).

Ltac reverse_path :=
  unfold Urls.reverse, Urls.urlpatterns, Urls.posts_urls, Urls.include;
  cbn [map app find Urls.name String.eqb Ascii.eqb Bool.eqb Urls.route
       Urls.fill Urls.str option_map].

(** The numeral of a number: what is known of it when it stands in a
    path. *)
Lemma numeral (n : nat) :
  exists d, Urls.str_of_nat n = d
            /\ Urls.fullmatch Urls.IntConverter d = true
            /\ Urls.int_of_str d = Some n.
Proof.
  exists (Urls.str_of_nat n).
  split; [reflexivity|]. split;
    [apply str_of_nat_fullmatch|apply int_of_str_of_nat].
Qed.

Ltac round_trip_auto :=
  eexists; split;
  [ reverse_path;
    repeat match goal with
           | H : Urls.str_of_nat _ = _ |- _ => rewrite H
           end;
    repeat match goal with
           | H : Urls.fullmatch _ _ = true |- _ => rewrite H
           end;
    cbn [option_map String.append]; reflexivity
  | resolve_path; reflexivity ].

Lemma reverse_resolve_all (id post_id comment_id : nat)
      (category_slug username : string) :
  Urls.fullmatch Urls.SlugConverter category_slug = true ->
  Urls.fullmatch Urls.SlugConverter username = true ->
  Urls.round_trip "index" [] Urls.IndexListView []
  /\ Urls.round_trip "post_detail" [Urls.VInt id]
       Urls.PostDetailView [("id"%string, Urls.VInt id)]
  /\ Urls.round_trip "create_post" [] Urls.PostCreateView []
  /\ Urls.round_trip "edit_post" [Urls.VInt post_id]
       Urls.PostUpdateView [("post_id"%string, Urls.VInt post_id)]
  /\ Urls.round_trip "delete_post" [Urls.VInt post_id]
       Urls.PostDeleteView [("post_id"%string, Urls.VInt post_id)]
  /\ Urls.round_trip "add_comment" [Urls.VInt post_id]
       Urls.CommentCreateView [("post_id"%string, Urls.VInt post_id)]
  /\ Urls.round_trip "edit_comment"
       [Urls.VInt post_id; Urls.VInt comment_id]
       Urls.CommentUpdateView
       [("post_id"%string, Urls.VInt post_id);
        ("comment_id"%string, Urls.VInt comment_id)]
  /\ Urls.round_trip "delete_comment"
       [Urls.VInt post_id; Urls.VInt comment_id]
       Urls.CommentDeleteView
       [("post_id"%string, Urls.VInt post_id);
        ("comment_id"%string, Urls.VInt comment_id)]
  /\ Urls.round_trip "category_posts" [Urls.VStr category_slug]
       Urls.CategoryPostsListView
       [("category_slug"%string, Urls.VStr category_slug)]
  /\ Urls.round_trip "profile" [Urls.VStr username]
       Urls.ProfileListView [("username"%string, Urls.VStr username)]
  /\ Urls.round_trip "edit_profile" [] Urls.ProfileUpdateView [].
Proof.
  intros Hslug Huser.
  destruct (numeral id) as (d & Ed & Hd & Hd').
  destruct (numeral post_id) as (dp & Edp & Hdp & Hdp').
  destruct (numeral comment_id) as (dc & Edc & Hdc & Hdc').
  unfold Urls.round_trip.
  repeat split; round_trip_auto.
Qed.

(** Reversing a name of the URL configuration and resolving the path gives
    the view registered under the name and the arguments back, for each of
    the eleven names; a category slug and a username must be of the slug
    class to be reversed. *)
Theorem urls_reverse_then_resolve :
  forall (id post_id comment_id : nat) (category_slug username : string),
    Urls.fullmatch Urls.SlugConverter category_slug = true ->
    Urls.fullmatch Urls.SlugConverter username = true ->
    Urls.round_trip "index" [] Urls.IndexListView []
    /\ Urls.round_trip "post_detail" [Urls.VInt id]
         Urls.PostDetailView [("id"%string, Urls.VInt id)]
    /\ Urls.round_trip "create_post" [] Urls.PostCreateView []
    /\ Urls.round_trip "edit_post" [Urls.VInt post_id]
         Urls.PostUpdateView [("post_id"%string, Urls.VInt post_id)]
    /\ Urls.round_trip "delete_post" [Urls.VInt post_id]
         Urls.PostDeleteView [("post_id"%string, Urls.VInt post_id)]
    /\ Urls.round_trip "add_comment" [Urls.VInt post_id]
         Urls.CommentCreateView [("post_id"%string, Urls.VInt post_id)]
    /\ Urls.round_trip "edit_comment"
         [Urls.VInt post_id; Urls.VInt comment_id]
         Urls.CommentUpdateView
         [("post_id"%string, Urls.VInt post_id);
          ("comment_id"%string, Urls.VInt comment_id)]
    /\ Urls.round_trip "delete_comment"
         [Urls.VInt post_id; Urls.VInt comment_id]
         Urls.CommentDeleteView
         [("post_id"%string, Urls.VInt post_id);
          ("comment_id"%string, Urls.VInt comment_id)]
    /\ Urls.round_trip "category_posts" [Urls.VStr category_slug]
         Urls.CategoryPostsListView
         [("category_slug"%string, Urls.VStr category_slug)]
    /\ Urls.round_trip "profile" [Urls.VStr username]
         Urls.ProfileListView [("username"%string, Urls.VStr username)]
    /\ Urls.round_trip "edit_profile" [] Urls.ProfileUpdateView [].
Proof.
  intros id post_id comment_id category_slug username.
  apply reverse_resolve_all.
Qed.

(** The path of comment 40 on post 3, and Alice's profile. *)
Lemma urls_reverse_then_resolve_witness :
  Urls.round_trip "edit_comment" [Urls.VInt 3; Urls.VInt 40]
    Urls.CommentUpdateView
    [("post_id"%string, Urls.VInt 3); ("comment_id"%string, Urls.VInt 40)]
  /\ Urls.round_trip "profile" [Urls.VStr "alice"]
       Urls.ProfileListView [("username"%string, Urls.VStr "alice")].
Proof.
  destruct (urls_reverse_then_resolve 3 3 40 "travel" "alice"
              eq_refl eq_refl)
    as (_ & _ & _ & _ & _ & _ & Hedit & _ & _ & Hprofile & _).
  split; [exact Hedit|exact Hprofile].
Defined.

(** ** What resolving captures *)

Lemma span_prefix_class (f : Ascii.ascii -> bool) (s a b : string) :
  Urls.span f s = (a, b) -> Urls.span f a = (a, EmptyString).
Proof.
  revert a b. induction s as [|c s IH]; simpl; intros a b H.
  - now injection H as <- <-.
  - destruct (f c) eqn:E.
    + destruct (Urls.span f s) as [x y]. injection H as <- <-.
      simpl. now rewrite E, (IH x y eq_refl).
    + now injection H as <- <-.
Qed.

Lemma match_route_captured (r : list Urls.Part) (s : string)
      (kw : list (string * Urls.Value)) (rest : string) :
  Urls.match_route r s = Some (kw, rest) -> Urls.captured r kw.
Proof.
  revert s kw rest. induction r as [|part r IH]; intros s kw rest H.
  - simpl in H. now injection H as <- <-.
  - destruct part as [text|c name]; simpl in H |- *.
    + destruct (Urls.strip_prefix text s); [|discriminate]. eauto.
    + destruct (Urls.span (Urls.char_class c) s) as [a b] eqn:E.
      destruct a as [|a0 a]; [discriminate|].
      destruct (Urls.to_python c (String a0 a)) as [v|] eqn:Ev;
        [|discriminate].
      destruct (Urls.match_route r b) as [[kw' rest']|] eqn:Er;
        [|discriminate].
      injection H as <- <-. split; [reflexivity|]. split; [|eauto].
      destruct c; simpl in Ev.
      * destruct (Urls.int_of_str (String a0 a)); [|discriminate].
        injection Ev as <-. exact I.
      * injection Ev as <-. unfold Urls.typed, Urls.fullmatch.
        now rewrite (span_prefix_class _ _ _ _ E).
Qed.

Lemma resolve_in_captured (ps : list Urls.Pattern) (s : string)
      (m : Urls.ResolverMatch) :
  Urls.resolve_in ps s = Some m ->
  exists p, In p ps
            /\ Urls.func m = Urls.view p
            /\ Urls.url_name m = Urls.name p
            /\ Urls.captured (Urls.route p) (Urls.kwargs m).
Proof.
  induction ps as [|p ps IH]; simpl; [discriminate|].
  destruct (Urls.match_route (Urls.route p) s) as [[kw [|c rest]]|] eqn:E.
  - intros [= <-]. exists p. simpl. repeat split; [now left|].
    now apply match_route_captured in E.
  - intros H. destruct (IH H) as (q & Hq & Hrest). exists q. auto.
  - intros H. destruct (IH H) as (q & Hq & Hrest). exists q. auto.
Qed.

(** Whatever path resolves, the match can be reversed from its name and
    its captured arguments, and the path so built resolves to the same
    view and arguments: a captured number is written without leading
    zeros, and a captured username or slug is always of the slug class. *)
Theorem urls_resolve_then_reverse :
  forall (s : string) (m : Urls.ResolverMatch),
    Urls.resolve s = Some m ->
    exists s',
      Urls.reverse (Urls.url_name m) (map snd (Urls.kwargs m)) = Some s'
      /\ Urls.resolve s' = Some m.
Proof.
  intros s m H. apply resolve_in_captured in H as (p & Hp & Hf & Hn & Hc).
  destruct m as [f n kw]. simpl in Hf, Hn, Hc |- *. subst f n.
  assert (Hslug : Urls.fullmatch Urls.SlugConverter "a" = true)
    by reflexivity.
  unfold Urls.urlpatterns, Urls.posts_urls, Urls.include in Hp.
  cbn [map app Urls.route Urls.view Urls.name In] in Hp.
  repeat (destruct Hp as [<-|Hp]); [..|contradiction];
    cbn [Urls.route Urls.view Urls.name Urls.captured] in Hc |- *;
    repeat match goal with
      | H : match ?kw with [] => False | _ :: _ => _ end |- _ =>
          destruct kw as [|[?k ?v] ?kw]; [contradiction|];
          destruct H as (-> & Ht & H)
      | H : Urls.typed Urls.IntConverter ?v |- _ =>
          destruct v as [?n|?t]; [clear H|contradiction]
      | H : Urls.typed Urls.SlugConverter ?v |- _ =>
          destruct v as [?n|?t]; [contradiction|simpl in H]
      end;
    subst; cbn [map snd].
  all: lazymatch goal with
       | |- context [Urls.reverse _ [Urls.VInt ?a; Urls.VInt ?b]] =>
           apply (reverse_resolve_all 0 a b "a" "a" Hslug Hslug)
       | |- context [Urls.reverse "post_detail" [Urls.VInt ?a]] =>
           apply (reverse_resolve_all a 0 0 "a" "a" Hslug Hslug)
       | |- context [Urls.reverse _ [Urls.VInt ?a]] =>
           apply (reverse_resolve_all 0 a 0 "a" "a" Hslug Hslug)
       | Ht : Urls.fullmatch Urls.SlugConverter ?t = true
         |- context [Urls.reverse "category_posts" [Urls.VStr ?t]] =>
           apply (reverse_resolve_all 0 0 0 t "a" Ht Hslug)
       | Ht : Urls.fullmatch Urls.SlugConverter ?t = true
         |- context [Urls.reverse "profile" [Urls.VStr ?t]] =>
           apply (reverse_resolve_all 0 0 0 "a" t Hslug Ht)
       | |- _ => apply (reverse_resolve_all 0 0 0 "a" "a" Hslug Hslug)
       end.
Qed.

(** A path with leading zeros resolves, and its match reverses to a path
    that resolves to the same match. *)
Lemma urls_resolve_then_reverse_witness :
  exists s',
    Urls.reverse "post_detail" [Urls.VInt 7] = Some s'
    /\ Urls.resolve s'
       = Some (Urls.mkMatch Urls.PostDetailView "post_detail"
                 [("id"%string, Urls.VInt 7)]).
Proof.
  apply (urls_resolve_then_reverse "posts/007/"
           (Urls.mkMatch Urls.PostDetailView "post_detail"
              [("id"%string, Urls.VInt 7)])).
  reflexivity.
Defined.

(** ** Creating a post *)

Lemma reverse_profile (username : string) :
  Urls.reverse "profile" [Urls.VStr username]
  = if Urls.fullmatch Urls.SlugConverter username
    then Some ("profile/" ++ username ++ "/")%string
    else None.
Proof.
  unfold Urls.reverse, Urls.urlpatterns, Urls.posts_urls, Urls.include.
  cbn [map app find Urls.name String.eqb Ascii.eqb Bool.eqb Urls.route
       Urls.fill Urls.str].
  now destruct (Urls.fullmatch Urls.SlugConverter username).
Qed.

(** The result of a valid submission by an authenticated user. *)
Lemma PostCreateView_dispatch_valid
      (PostForm_clean : QueryDict -> option Post.t) (db : DB) (now : Z)
      (request : HttpRequest) (V : User.t) (instance : Post.t) :
  req_user request = LoggedIn V -> req_method request = POST ->
  PostForm_clean (req_POST request) = Some instance ->
  PostCreateView_dispatch PostForm_clean now request db
  = (if Urls.fullmatch Urls.SlugConverter (User.username V)
     then HttpResponseRedirect (blog_profile (User.username V))
     else ServerError,
     mkDB (users db) (categories db)
       (posts db
        ++ [Post.mk (next_pk (map Post.pk (posts db))) (User.pk V)
              (Post.category instance) (Post.location instance)
              (Post.title instance) (Post.text instance)
              (Post.pub_date instance) (Post.is_published instance) now])
       (comments db)).
Proof.
  intros HV Hm Hvalid.
  unfold PostCreateView_dispatch, LoginRequiredMixin_dispatch.
  rewrite HV. simpl. rewrite Hm. unfold PostCreateView_post.
  rewrite Hvalid.
  unfold PostCreateView_form_valid, PostCreateView_get_success_url.
  rewrite HV, reverse_profile.
  now destruct (Urls.fullmatch Urls.SlugConverter (User.username V)).
Qed.

(** A valid post form submitted by an authenticated user [V] appends one
    post row whose author is [V], whatever author the submitted instance
    names, with a key no stored post has and the fields of the instance;
    the other tables are untouched.  The response redirects to the profile
    page of [V] when the username of [V] is a slug; when it is not, the
    profile URL cannot be reversed and the response is a server error,
    the row having been saved. *)
Theorem post_create_saves_with_requester_as_author :
  forall (PostForm_clean : QueryDict -> option Post.t) (db : DB) (now : Z)
         (request : HttpRequest) (V : User.t) (instance : Post.t),
    req_user request = LoggedIn V -> req_method request = POST ->
    PostForm_clean (req_POST request) = Some instance ->
    exists o,
      snd (PostCreateView_dispatch PostForm_clean now request db)
      = mkDB (users db) (categories db) (posts db ++ [o]) (comments db)
      /\ Post.author o = User.pk V
      /\ ~ In (Post.pk o) (map Post.pk (posts db))
      /\ Post.category o = Post.category instance
      /\ Post.title o = Post.title instance
      /\ Post.text o = Post.text instance
      /\ Post.pub_date o = Post.pub_date instance
      /\ Post.is_published o = Post.is_published instance
      /\ fst (PostCreateView_dispatch PostForm_clean now request db)
         = (if Urls.fullmatch Urls.SlugConverter (User.username V)
            then HttpResponseRedirect (blog_profile (User.username V))
            else ServerError).
Proof.
  intros clean db now request V instance HV Hm Hvalid.
  rewrite (PostCreateView_dispatch_valid clean db now request V instance
             HV Hm Hvalid).
  eexists. split; [reflexivity|]. simpl.
  repeat split. apply next_pk_fresh.
Qed.

(** Carol's post is saved under her key and she is sent to her profile;
    Dave, whose username has a dot, gets a server error. *)
Lemma post_create_witness :
  (exists o,
      snd (PostCreateView_dispatch ExampleForms.PostForm_clean 300
             ExampleForms.request_post Example.db)
      = mkDB (users Example.db) (categories Example.db)
          (posts Example.db ++ [o]) (comments Example.db)
      /\ Post.author o = 3)
  /\ fst (PostCreateView_dispatch ExampleForms.PostForm_clean 300
            ExampleForms.request_post Example.db)
     = HttpResponseRedirect (blog_profile "carol")
  /\ fst (PostCreateView_dispatch ExampleForms.PostForm_clean 300
            (mkRequest (LoggedIn ExampleForms.dave) POST
               [("title"%string, "Plans"%string)])
            Example.db)
     = ServerError.
Proof.
  destruct (post_create_saves_with_requester_as_author
              ExampleForms.PostForm_clean Example.db 300
              ExampleForms.request_post Example.carol
              (Post.mk 0 0 (Some 2) None "Plans" "..." 50 false 0)
              eq_refl eq_refl eq_refl)
    as (o & Hdb & Hauthor & _ & _ & _ & _ & _ & _ & Hresp).
  split; [exists o; split; [exact Hdb|exact Hauthor]|].
  split; [exact Hresp|reflexivity].
Defined.

(** The requests that create no post: an anonymous one is sent to the
    login page, a [GET] and an invalid form show the form; the store is
    left as it was. *)
Theorem post_create_refusals_write_nothing :
  forall (PostForm_clean : QueryDict -> option Post.t) (db : DB) (now : Z)
         (request : HttpRequest),
    (req_user request = AnonymousUser ->
     PostCreateView_dispatch PostForm_clean now request db
     = (HttpResponseRedirect login_url, db))
    /\ (is_authenticated (req_user request) = true ->
        req_method request = GET ->
        PostCreateView_dispatch PostForm_clean now request db
        = (TemplateResponse "blog/create.html", db))
    /\ (is_authenticated (req_user request) = true ->
        req_method request = POST ->
        PostForm_clean (req_POST request) = None ->
        PostCreateView_dispatch PostForm_clean now request db
        = (TemplateResponse "blog/create.html", db)).
Proof.
  intros clean db now request.
  unfold PostCreateView_dispatch, LoginRequiredMixin_dispatch,
    PostCreateView_post.
  repeat split.
  - intros ->. reflexivity.
  - intros -> ->. reflexivity.
  - intros -> -> ->. reflexivity.
Qed.

(** An anonymous submission and one without a title. *)
Lemma post_create_refusals_witness :
  PostCreateView_dispatch ExampleForms.PostForm_clean 300
    (mkRequest AnonymousUser POST [("title"%string, "Plans"%string)])
    Example.db
  = (HttpResponseRedirect login_url, Example.db)
  /\ PostCreateView_dispatch ExampleForms.PostForm_clean 300
       Example.request_carol Example.db
     = (TemplateResponse "blog/create.html", Example.db).
Proof.
  split.
  - apply (post_create_refusals_write_nothing ExampleForms.PostForm_clean
             Example.db 300
             (mkRequest AnonymousUser POST
                [("title"%string, "Plans"%string)])).
    reflexivity.
  - apply (post_create_refusals_write_nothing ExampleForms.PostForm_clean
             Example.db 300 Example.request_carol); reflexivity.
Defined.




(** What [CreateView.post] does for an authenticated request: nothing is
    written, or one post row is appended for a valid form. *)
Lemma PostCreateView_post_cases
      (PostForm_clean : QueryDict -> option Post.t) (db : DB) (now : Z)
      (request : HttpRequest) (V : User.t) :
  req_user request = LoggedIn V ->
  PostCreateView_post PostForm_clean now request db
  = (TemplateResponse "blog/create.html", db)
     /\ PostForm_clean (req_POST request) = None
  \/ exists instance,
      PostForm_clean (req_POST request) = Some instance
      /\ snd (PostCreateView_post PostForm_clean now request db)
         = mkDB (users db) (categories db)
             (posts db
              ++ [Post.mk (next_pk (map Post.pk (posts db))) (User.pk V)
                    (Post.category instance) (Post.location instance)
                    (Post.title instance) (Post.text instance)
                    (Post.pub_date instance) (Post.is_published instance)
                    now])
             (comments db).
Proof.
  intros EV. unfold PostCreateView_post.
  destruct (PostForm_clean (req_POST request)) as [instance|] eqn:Ef;
    [|left; now split].
  right. exists instance. split; [reflexivity|].
  unfold PostCreateView_form_valid. rewrite EV.
  now destruct (PostCreateView_get_success_url V).
Qed.

(** For every request, creating a post leaves the user, category and
    comment tables as they were, keeps every stored post, and appends at
    most one post row.  A row is appended only for an authenticated [POST]
    whose form is valid, or for an authenticated [PUT] when the form accepts
    an empty submission; its author is the requester and its key is one no
    stored post has.  No other method writes. *)
Theorem post_create_writes_one_post_at_most :
  forall (PostForm_clean : QueryDict -> option Post.t) (db : DB) (now : Z)
         (request : HttpRequest),
    let result := PostCreateView_dispatch PostForm_clean now request db in
    users (snd result) = users db
    /\ categories (snd result) = categories db
    /\ comments (snd result) = comments db
    /\ (posts (snd result) = posts db
        \/ exists o,
            posts (snd result) = posts db ++ [o]
            /\ same_user (Post.author o) (req_user request) = true
            /\ (req_method request = POST
                /\ PostForm_clean (req_POST request) <> None
                \/ req_method request = PUT
                   /\ PostForm_clean [] <> None)
            /\ ~ In (Post.pk o) (map Post.pk (posts db))).
Proof.
  intros clean db now request result. subst result.
  unfold PostCreateView_dispatch, LoginRequiredMixin_dispatch.
  destruct (req_user request) as [|V] eqn:EV; simpl;
    [repeat split; now left|].
  destruct (req_method request) eqn:Em; simpl;
    try (repeat split; now left).
  - destruct (PostCreateView_post_cases clean db now request V EV)
      as [[H Hf]|(instance & Hf & H)]; rewrite H;
      [repeat split; now left|].
    simpl. repeat split. right. eexists. split; [reflexivity|].
    simpl. rewrite Nat.eqb_refl. repeat split; [|apply next_pk_fresh].
    left. split; [reflexivity|congruence].
  - destruct (PostCreateView_post_cases clean db now (without_POST request)
                V EV) as [[H Hf]|(instance & Hf & H)]; rewrite H;
      [repeat split; now left|].
    simpl. repeat split. right. eexists. split; [reflexivity|].
    simpl. rewrite Nat.eqb_refl. repeat split; [|apply next_pk_fresh].
    right. split; [reflexivity|simpl in Hf; congruence].
Qed.

(** A [PUT] by Carol to the post creation URL: a form that accepts the
    empty submission writes a post, the example form does not. *)
Lemma post_create_put_witness :
  (exists o,
      posts
        (snd (PostCreateView_dispatch ExampleForms.PostForm_any 300
                ExampleForms.request_put Example.db))
      = posts Example.db ++ [o])
  /\ snd (PostCreateView_dispatch ExampleForms.PostForm_clean 300
            ExampleForms.request_put Example.db)
     = Example.db.
Proof.
  split; [|reflexivity].
  destruct (post_create_writes_one_post_at_most
              ExampleForms.PostForm_any Example.db 300
              ExampleForms.request_put) as (_ & _ & _ & [H|H]).
  - exfalso. apply (f_equal (@List.length Post.t)) in H.
    vm_compute in H. discriminate.
  - destruct H as (o & H & _). exists o. exact H.
Defined.
